(** * xobjects: the PyOpenCL context (context_pyopencl.py)

    A shallow embedding of [ContextPyopencl], [BufferPyopencl],
    [KernelPyopencl] and [FFTPyopencl], and the properties of the
    design document that concern them.

    Python exceptions are values of [PyExn]; a call that may raise returns
    an [outcome].  Mutable objects are threaded explicitly: a buffer's
    device memory is part of the buffer value, the kernel descriptions
    handed to [add_kernels] live in a store of objects addressed by
    reference, and calls into the native layer are recorded in a trace. *)

From Stdlib Require Import ZArith List Bool Lia Reals Lra.
From Stdlib.Strings Require Import Byte.
From stdpp Require Import base option list functions gmap strings.

Local Open Scope Z_scope.

#[local] Set Warnings "-clear-no-such-hyp".

(* ===================================================================== *)
(** ** Exceptions and outcomes *)
(* ===================================================================== *)

(** The exceptions the module raises itself ([assert], [raise], dictionary
    and tuple indexing, [max] of an empty sequence) and the error kinds of
    the collaborators that are not part of the sources. *)
Inductive PyExn : Type :=
| AssertionError          (* a failed [assert] *)
| NotImplementedError     (* [raise NotImplementedError] *)
| ValueError              (* [raise ValueError(...)], [max(())], [bytearray(-1)] *)
| KeyError                (* [kwargs[name]] on an absent key *)
| IndexError              (* [shape[i]] out of range *)
| TypeError               (* a call that does not fit the callee's signature *)
| AttributeError          (* [getattr] on an absent attribute *)
| RangeError              (* native copy outside the buffer (design document, section 7) *)
| AllocationError         (* native allocation refused (section 7) *)
| CompilationError        (* native build failed (section 7) *)
| DeviceError             (* native launch or wait failed (section 7) *)
| AlignmentError          (* sub-buffer at an offset the device refuses (section 7) *)
| OSError.                (* [open] or [write] of a file failed *)

Inductive outcome (A : Type) : Type :=
| Ret (a : A)
| Raise (e : PyExn).
Arguments Ret {A} a.
Arguments Raise {A} e.

Definition bind {A B : Type} (m : outcome A) (f : A -> outcome B) : outcome B :=
  match m with
  | Ret a => f a
  | Raise e => Raise e
  end.

Notation "x <- m ;; k" := (bind m (fun x => k))
  (at level 100, m at next level, right associativity).

(** [assert c] *)
Definition py_assert (c : bool) : outcome unit :=
  if c then Ret tt else Raise AssertionError.

#[global] Instance PyExn_eq_dec : EqDecision PyExn.
Proof. solve_decision. Defined.

(** [len(x)] of a Python sequence, as a Python integer. *)
Definition len {A : Type} (l : list A) : Z := Z.of_nat (length l).

(* ===================================================================== *)
(** ** Python values and kernel descriptions *)
(* ===================================================================== *)

(** A numpy dtype, by name. *)
Definition Dtype : Type := string.

(** The values that reach a kernel call.  The attribute probes of the
    module ([hasattr(value, "dtype")], [isinstance(value, cla.Array)],
    [hasattr(value, "_shape")]) are the three functions that follow. *)
Inductive PyValue : Type :=
| VNone
| VInt (n : Z)
| VStr (s : string)
| VNumpyScalar (dtype : Dtype) (n : Z)               (* numpy scalar: has [dtype] *)
| VNdarray (dtype : Dtype) (shape : list Z)          (* numpy.ndarray, host memory *)
| VClArray (base_data : nat) (offset : Z) (dtype : Dtype) (shape : list Z)
                                                     (* pyopencl.array.Array, device memory *)
| VXArray (_shape : list Z)                          (* xobjects array: has [_shape] *)
| VSubBuffer (base_data : nat) (start : Z).          (* [base_data[start:]] of a [cl.Buffer] *)

Definition hasattr_dtype (value : PyValue) : bool :=
  match value with
  | VNumpyScalar _ _ | VNdarray _ _ | VClArray _ _ _ _ => true
  | _ => false
  end.

Definition isinstance_cla_Array (value : PyValue) : bool :=
  match value with
  | VClArray _ _ _ _ => true
  | _ => false
  end.

Definition hasattr__shape (value : PyValue) : bool :=
  match value with
  | VXArray _ => true
  | _ => false
  end.

(** The type marker of an argument, as far as the module probes it:
    [_dtype] is present on numerical scalar types, [_size] on xobjects
    types ([None]: the attribute is absent). *)
Record AType : Type := mkAType {
  _dtype : option Dtype;
  _size : option Z
}.

(** An argument of a kernel description ([arg.name], [arg.pointer],
    [arg.atype]). *)
Record Arg : Type := mkArg {
  name : string;
  pointer : bool;
  atype : AType
}.

(** [description.n_threads]: the name of a call argument or a number. *)
Inductive NThreads : Type :=
| NThreadsStr (s : string)
| NThreadsInt (n : Z).

(** A kernel description ([c_name], [args], [n_threads]; [pyname] only
    appears in messages). *)
Record Kernel : Type := mkKernel {
  c_name : option string;
  args : list Arg;
  n_threads : NThreads
}.

(** A [KernelPyopencl]; [D] is how the description object is held: its
    state when a call reads it, its address where objects are shared. *)
Record KernelPyopencl (F D : Type) : Type := mkKernelPyopencl {
  function : F;
  description : D;
  wait_on_call : bool
}.
Arguments mkKernelPyopencl {F D}.
Arguments function {F D}.
Arguments description {F D}.
Arguments wait_on_call {F D}.

(* ===================================================================== *)
(** ** BufferPyopencl *)
(* ===================================================================== *)

Module Buffer.

(** A [BufferPyopencl]: the [capacity] attribute and the native [cl.Buffer]
    held in [self.buffer], given by the bytes of its device memory (the size
    of the native buffer is the length of that list). *)
Record BufferPyopencl : Type := mkBuffer {
  capacity : Z;
  buffer : list byte
}.

(** The buffer invariant: the native handle is sized to [capacity]. *)
Definition buffer_wf (b : BufferPyopencl) : Prop :=
  len (buffer b) = capacity b.

(** [offset >= 0 and offset + nbytes <= size] *)
Definition in_range (offset nbytes size : Z) : bool :=
  (0 <=? offset) && (offset + nbytes <=? size).

(** Modelled from the spec: [cl.Buffer(context, READ_WRITE, capacity)] of
    pyopencl, which [_new_buffer] calls, is not part of the sources.
    Section 4.1: a region of [capacity] bytes of uninitialised content
    ([garbage] gives the bytes the device happens to hold), refused with
    [AllocationError] when the device cannot satisfy the request:
    [available] tells the sizes it can satisfy, and no device gives a
    buffer of no byte. *)
Definition cl_Buffer (available : Z -> bool) (garbage : nat -> byte) (size : Z)
    : outcome (list byte) :=
  if (0 <? size) && available size then Ret (map garbage (seq 0 (Z.to_nat size)))
  else Raise AllocationError.

(** [BufferPyopencl._new_buffer] *)
Definition _new_buffer (available : Z -> bool) (garbage : nat -> byte) (capacity : Z)
    : outcome (list byte) :=
  cl_Buffer available garbage capacity.

(** Modelled from the spec: [XBuffer.__init__] (module [general]) is not part
    of the sources.  Section 3: a buffer holds its capacity and a raw
    device-memory handle sized to capacity, obtained from [_new_buffer]. *)
Definition XBuffer_init (available : Z -> bool) (garbage : nat -> byte) (capacity : Z)
    : outcome BufferPyopencl :=
  buf <- _new_buffer available garbage capacity ;;
  Ret (mkBuffer capacity buf).

(** Modelled from the spec: [cl.enqueue_copy] of pyopencl is not part of the
    sources.  Sections 3, 4.2 and 7: a host payload is copied into
    [[device_offset, device_offset + len(src))] of the device buffer, and
    the copy fails with [RangeError] when that range is not inside the
    buffer.  The copy is blocking (pyopencl's default). *)
Definition enqueue_copy_to_device
    (dest : list byte) (src : list byte) (device_offset : Z) : outcome (list byte) :=
  if in_range device_offset (len src) (len dest)
  then Ret (take (Z.to_nat device_offset) dest ++ src
              ++ drop (Z.to_nat (device_offset + len src)) dest)
  else Raise RangeError.

(** Modelled from the spec: [cl.enqueue_copy] towards a host object, not part
    of the sources.  Section 4.2: the host object is filled with the
    [len(dest)] bytes of the device buffer that start at [device_offset];
    [RangeError] when that range is not inside the buffer. *)
Definition enqueue_copy_to_host
    (dest : list byte) (src : list byte) (device_offset : Z) : outcome (list byte) :=
  if in_range device_offset (len dest) (len src)
  then Ret (take (length dest) (drop (Z.to_nat device_offset) src))
  else Raise RangeError.

(** [bytearray(size)]: [size] zero bytes; a negative count is a [ValueError]. *)
Definition bytearray (size : Z) : outcome (list byte) :=
  if size <? 0 then Raise ValueError
  else Ret (replicate (Z.to_nat size) x00).

(** [BufferPyopencl.write]: the device buffer is updated in place, the
    updated buffer object is returned here.  ([log.debug] only formats a
    message.) *)
Definition write (self : BufferPyopencl) (offset : Z) (data : list byte)
    : outcome BufferPyopencl :=
  buf <- enqueue_copy_to_device (buffer self) data offset ;;
  Ret (mkBuffer (capacity self) buf).

(** [BufferPyopencl.read] *)
Definition read (self : BufferPyopencl) (offset : Z) (size : Z)
    : outcome (list byte) :=
  data <- bytearray size ;;
  data <- enqueue_copy_to_host data (buffer self) offset ;;
  Ret data.

(** [BufferPyopencl.update_from_buffer]: the same native call as [write]. *)
Definition update_from_buffer (self : BufferPyopencl) (offset : Z) (source : list byte)
    : outcome BufferPyopencl :=
  buf <- enqueue_copy_to_device (buffer self) source offset ;;
  Ret (mkBuffer (capacity self) buf).

(** [BufferPyopencl.to_bytearray]: the same native call as [read]. *)
Definition to_bytearray (self : BufferPyopencl) (offset : Z) (nbytes : Z)
    : outcome (list byte) :=
  data <- bytearray nbytes ;;
  data <- enqueue_copy_to_host data (buffer self) offset ;;
  Ret data.

Section NpLike.

(** The constructor of pyopencl's arrays as [to_nplike] calls it,
    [cl.array.Array(queue, base_data=..., offset=..., shape=...)]: the queue
    and three keyword arguments.  What it answers is the library's. *)
Context {Array : Type}.
Variable cl_array_Array : list byte -> Z -> list Z -> outcome Array.

(** [BufferPyopencl.to_nplike] *)
Definition to_nplike (self : BufferPyopencl) (offset : Z) (dtype : Dtype)
    (shape : list Z) : outcome Array :=
  cl_array_Array (buffer self) offset shape.

(** "Returns a typed view of the requested dtype", for whatever reads the
    dtype of a view. *)
Definition returns_view_of (dtype_of : Array -> Dtype) (self : BufferPyopencl)
    (offset : Z) (dtype : Dtype) (shape : list Z) : Prop :=
  exists view, to_nplike self offset dtype shape = Ret view /\ dtype_of view = dtype.

End NpLike.

End Buffer.

(* ===================================================================== *)
(** ** KernelPyopencl *)
(* ===================================================================== *)

Module KernelCall.

Section WithNative.

(** The native layer: kernel handles, completion events, what a launch and
    a wait answer, and [arg.atype(value)], the conversion to a numpy
    scalar. *)
Context {Function Event : Type}.
Variable native_launch : Function -> PyValue -> list PyValue -> outcome Event.
Variable event_wait : Event -> outcome unit.
Variable atype_call : AType -> PyValue -> outcome PyValue.

(** [base_data[start:]] on a native buffer asks the device for a
    sub-buffer, which it grants or refuses (an offset that is not aligned
    is refused, as the docstring of [to_pointer_arg] says). *)
Variable sub_buffer : nat -> Z -> outcome unit.

(** The attribute [pyname] of a description object, when it has one: the
    class of the descriptions is not part of the sources, and nothing in
    the module sets the attribute. *)
Variable description_pyname : Kernel -> option string.

(** What the native layer was asked to do, oldest first. *)
Inductive NativeOp : Type :=
| Launch (f : Function) (n_threads : PyValue) (arg_list : list PyValue)
| Wait (event : Event).

(** [raise ValueError(f"Invalid value ... of kernel
    {self.description.pyname}")]: the message is formatted first, and
    reading [pyname] on a description without it is an [AttributeError]. *)
Definition raise_invalid_value (description : Kernel) : outcome PyValue :=
  match description_pyname description with
  | Some _ => Raise ValueError
  | None => Raise AttributeError
  end.

(** [KernelPyopencl.to_function_arg], [description] being
    [self.description].  A pointer argument of numerical scalar type whose
    value has neither [dtype] nor [_shape] leaves both branches of the
    inner [if]/[elif]: the method returns [None]. *)
Definition to_function_arg (description : Kernel) (arg : Arg) (value : PyValue)
    : outcome PyValue :=
  if pointer arg then
    if bool_decide (is_Some (_dtype (atype arg))) then
      if hasattr_dtype value then
        _ <- py_assert (isinstance_cla_Array value) ;;
        match value with
        | VClArray base_data offset _ _ =>
            _ <- sub_buffer base_data offset ;;
            Ret (VSubBuffer base_data offset)
        | _ => Raise AssertionError
        end
      else if hasattr__shape value then
        Raise NotImplementedError
      else Ret VNone
    else raise_invalid_value description
  else
    if bool_decide (is_Some (_dtype (atype arg))) then
      atype_call (atype arg) value
    else if bool_decide (is_Some (_size (atype arg))) then
      Raise NotImplementedError
    else raise_invalid_value description.

(** [kwargs[key]] *)
Definition getitem (kwargs : gmap string PyValue) (key : string) : outcome PyValue :=
  match kwargs !! key with
  | Some v => Ret v
  | None => Raise KeyError
  end.

(** The loop of [__call__] that fills [arg_list]. *)
Fixpoint marshal (description : Kernel) (description_args : list Arg)
    (kwargs : gmap string PyValue) : outcome (list PyValue) :=
  match description_args with
  | [] => Ret []
  | arg :: rest =>
      vv <- getitem kwargs (name arg) ;;
      a <- to_function_arg description arg vv ;;
      arg_list <- marshal description rest kwargs ;;
      Ret (a :: arg_list)
  end.

(** [KernelPyopencl.num_args] *)
Definition num_args (self : KernelPyopencl Function Kernel) : Z :=
  len (args (description self)).

(** The thread count of a call. *)
Definition resolve_n_threads (self : KernelPyopencl Function Kernel)
    (kwargs : gmap string PyValue) : outcome PyValue :=
  match n_threads (description self) with
  | NThreadsStr s => getitem kwargs s
  | NThreadsInt n => Ret (VInt n)
  end.

(** [KernelPyopencl.__call__]: from the trace of native operations so far
    to the outcome of the call and the trace it leaves. *)
Definition __call__ (self : KernelPyopencl Function Kernel)
    (kwargs : gmap string PyValue) (trace : list NativeOp)
    : outcome Event * list NativeOp :=
  match py_assert (Z.of_nat (size kwargs) =? num_args self) with
  | Raise e => (Raise e, trace)
  | Ret _ =>
  match marshal (description self) (args (description self)) kwargs with
  | Raise e => (Raise e, trace)
  | Ret arg_list =>
  match resolve_n_threads self kwargs with
  | Raise e => (Raise e, trace)
  | Ret n_threads =>
  let trace := trace ++ [Launch (function self) n_threads arg_list] in
  match native_launch (function self) n_threads arg_list with
  | Raise e => (Raise e, trace)
  | Ret event =>
  if wait_on_call self then
    let trace := trace ++ [Wait event] in
    match event_wait event with
    | Raise e => (Raise e, trace)
    | Ret _ => (Ret event, trace)
    end
  else (Ret event, trace)
  end end end end.

End WithNative.

(** *** The words of the design document *)

(** The declared names of a kernel, in declaration order. *)
Definition declared_names (k : Kernel) : list string := map name (args k).

(** The supplied names are the declared ones but for one that is missing. *)
Definition one_missing (kwargs : gmap string PyValue) (names : list string) : Prop :=
  exists n, (n ∈ names) /\ dom kwargs = list_to_set names ∖ {[ n ]}.

(** The supplied names are the declared ones and one more. *)
Definition one_extra (kwargs : gmap string PyValue) (names : list string) : Prop :=
  exists e, (e ∉ names) /\ dom kwargs = list_to_set names ∪ {[ e ]}.

(** "Device-resident typed array": a [pyopencl.array.Array]. *)
Definition device_resident (value : PyValue) : bool := isinstance_cla_Array value.

(** "Numeric-scalar element type": the type has [_dtype]. *)
Definition numeric_scalar (t : AType) : Prop := is_Some (_dtype t).

(** "Structured/compound type": an xobjects type ([_size]) that is not a
    numerical scalar (no [_dtype]). *)
Definition compound (t : AType) : Prop := _dtype t = None /\ is_Some (_size t).

End KernelCall.

(* ===================================================================== *)
(** ** ContextPyopencl.add_kernels *)
(* ===================================================================== *)

Module Context.

(** An element of [sources]: an object with [read] (its text and its
    [name]) or a plain string. *)
Inductive Source : Type :=
| SourceFile (text : string) (name : string)
| SourceText (text : string).

(** ["\n".join(source)] *)
Definition join_lines (source : list string) : string :=
  String.concat (String (Ascii.ascii_of_nat 10) EmptyString) source.

Section WithNative.

(** The collaborators: native programs and kernel handles,
    [cl.Program(context, source).build()], [getattr(prg, name)],
    [specialize_source(source, specialize_for="opencl",
    search_in_folders=fold_list)] and [os.path.dirname]. *)
Context {Program Function : Type}.
Variable cl_Program_build : string -> outcome Program.
Variable getattr_prg : Program -> string -> outcome Function.
Variable specialize_source : string -> gset string -> outcome string.
Variable dirname : string -> string.

(** [with open(path, "w") as fid: fid.write(source)] as the file system
    answers it: [None] when the text is written, the exception otherwise,
    with the text the file is left with when it was opened ([None]: the
    file could not be opened and nothing is touched). *)
Variable save_file : string -> string -> option (PyExn * option string).

(** What [add_kernels] can change: the mapping [self._kernels] behind the
    [kernels] property, the description objects (addressed by reference:
    the caller and the bindings hold the same objects), and the files. *)
Record State : Type := mkState {
  _kernels : gmap string (KernelPyopencl Function nat);
  objects : nat -> Kernel;
  files : gmap string string
}.

(** [kernel.c_name = pyname] on the object at [ref]. *)
Definition set_c_name (ref : nat) (pyname : string) (st : State) : State :=
  let k := objects st ref in
  mkState (_kernels st)
          (<[ ref := mkKernel (Some pyname) (args k) (n_threads k) ]> (objects st))
          (files st).

(** [self.kernels[pyname] = binding] *)
Definition set_kernel (pyname : string) (binding : KernelPyopencl Function nat)
    (st : State) : State :=
  mkState (<[ pyname := binding ]> (_kernels st)) (objects st) (files st).

(** [if kernel.c_name is None: kernel.c_name = pyname]: the state it
    leaves and the value that [kernel.c_name] reads afterwards. *)
Definition default_c_name (pyname : string) (kernel : nat) (st : State)
    : string * State :=
  match c_name (objects st kernel) with
  | None => (pyname, set_c_name kernel pyname st)
  | Some c => (c, st)
  end.

(** The loop over [kernels.items()], in the order of the dictionary. *)
Fixpoint bind_kernels (prg : Program) (items : list (string * nat)) (st : State)
    : outcome unit * State :=
  match items with
  | [] => (Ret tt, st)
  | (pyname, kernel) :: rest =>
      let '(c, st) := default_c_name pyname kernel st in
      match getattr_prg prg c with
      | Raise e => (Raise e, st)
      | Ret f =>
          bind_kernels prg rest
            (set_kernel pyname (mkKernelPyopencl f kernel true) st)
      end
  end.

(** The text handed to the compiler and the folders of the files. *)
Definition source_text (sources : list Source) : string :=
  join_lines (map (fun ss => match ss with
                             | SourceFile text _ => text
                             | SourceText text => text
                             end) sources).

Definition fold_list (sources : list Source) : gset string :=
  list_to_set (omap (fun ss => match ss with
                               | SourceFile _ name => Some (dirname name)
                               | SourceText _ => None
                               end) sources).

(** The source that is built: specialised when asked. *)
Definition final_source (sources : list Source) (specialize : bool) : outcome string :=
  if specialize then specialize_source (source_text sources) (fold_list sources)
  else Ret (source_text sources).

(** [if save_source_as is not None: with open(save_source_as, "w") as fid:
    fid.write(source)] *)
Definition save_source (source : string) (save_source_as : option string) (st : State)
    : outcome unit * State :=
  match save_source_as with
  | None => (Ret tt, st)
  | Some path =>
      match save_file path source with
      | None =>
          (Ret tt, mkState (_kernels st) (objects st) (<[ path := source ]> (files st)))
      | Some (e, None) => (Raise e, st)
      | Some (e, Some text) =>
          (Raise e, mkState (_kernels st) (objects st) (<[ path := text ]> (files st)))
      end
  end.

(** [ContextPyopencl.add_kernels] *)
Definition add_kernels (sources : list Source) (kernels : list (string * nat))
    (specialize : bool) (save_source_as : option string) (st : State)
    : outcome unit * State :=
  match final_source sources specialize with
  | Raise e => (Raise e, st)
  | Ret source =>
      match save_source source save_source_as st with
      | (Raise e, st) => (Raise e, st)
      | (Ret _, st) =>
          match cl_Program_build source with
          | Raise e => (Raise e, st)
          | Ret prg => bind_kernels prg kernels st
          end
      end
  end.

End WithNative.

End Context.

(* ===================================================================== *)
(** ** FFTPyopencl *)
(* ===================================================================== *)

Module FFT.

(** [max(axes)]: a [ValueError] on an empty sequence. *)
Definition py_max (axes : list Z) : outcome Z :=
  match axes with
  | [] => Raise ValueError
  | a :: rest => Ret (fold_left Z.max rest a)
  end.

(** [shape[ii]], negative indices counting from the end. *)
Definition getitem (shape : list Z) (ii : Z) : outcome Z :=
  let jj := if ii <? 0 then ii + len shape else ii in
  if (0 <=? jj) && (jj <? len shape) then
    match shape !! Z.to_nat jj with
    | Some nn => Ret nn
    | None => Raise IndexError
    end
  else Raise IndexError.

(** [axes[:-1]] *)
Definition but_last (axes : list Z) : list Z := take (length axes - 1) axes.

(** The numerical test of the loop.  [np.log], the division and [np.modf]
    are taken over the real numbers: the rounding of the binary64
    evaluation, a few units in the sixteenth digit, is not modelled.
    [np.isclose(a, b)] is [|a - b| <= atol + rtol * |b|] with the default
    tolerances [atol = 1e-8] and [rtol = 1e-5]. *)
Definition atol : R := (1 / 100000000)%R.
Definition rtol : R := (1 / 100000)%R.

Definition np_isclose (a b : R) : bool :=
  if Rle_dec (Rabs (a - b)) (atol + rtol * Rabs b) then true else false.

(** The fractional part that [np.modf] returns: it has the sign of [x]. *)
Definition np_modf_frac (x : R) : R :=
  if Rle_dec 0 x then frac_part x else (- frac_part (- x))%R.

(** [np.isclose(np.modf(np.log(nn) / np.log(2))[0], 0)].  [np.log(0)] is
    [-inf], whose fractional part is [-0.0]; the logarithm of a negative
    number is [nan], which is close to nothing. *)
Definition log2_is_whole (nn : Z) : bool :=
  if nn <? 0 then false
  else if nn =? 0 then true
  else np_isclose (np_modf_frac (ln (IZR nn) / ln 2)) 0.

(** The loop over [axes[:-1]]. *)
Fixpoint check_extents (shape : list Z) (axes : list Z) : outcome unit :=
  match axes with
  | [] => Ret tt
  | ii :: rest =>
      nn <- getitem shape ii ;;
      _ <- py_assert (log2_is_whole nn) ;;
      check_extents shape rest
  end.

(** The two assertions of [__init__]. *)
Definition validate (shape : list Z) (axes : list Z) : outcome unit :=
  m <- py_max axes ;;
  _ <- py_assert (m <? len shape) ;;
  check_extents shape (but_last axes).

Section WithNative.

(** The native plan and [gpyfft.fft.FFT(context, queue, data, axes=axes)],
    which only sees the shape of [data] here. *)
Context {Plan : Type}.
Variable gpyfft_FFT : list Z -> list Z -> outcome Plan.

Record FFTPyopencl : Type := mkFFT {
  axes : list Z;
  wait_on_call : bool;
  _fftobj : Plan
}.

(** The native plans that were asked for, oldest first. *)
Inductive NativeOp : Type :=
| BuildPlan (shape : list Z) (axes : list Z).

(** [FFTPyopencl.__init__] on [data] of the given shape. *)
Definition __init__ (shape : list Z) (axes : list Z) (wait_on_call : bool)
    (trace : list NativeOp) : outcome FFTPyopencl * list NativeOp :=
  match validate shape axes with
  | Raise e => (Raise e, trace)
  | Ret _ =>
      let trace := trace ++ [BuildPlan shape axes] in
      match gpyfft_FFT shape axes with
      | Raise e => (Raise e, trace)
      | Ret plan => (Ret (mkFFT axes wait_on_call plan), trace)
      end
  end.

End WithNative.

(** A power of two. *)
Definition power_of_two (nn : Z) : Prop := exists k : nat, nn = 2 ^ Z.of_nat k.

End FFT.

(* ===================================================================== *)
(** ** The rest of the module *)
(* ===================================================================== *)

(** *** BufferPyopencl: copies between device buffers *)

Module BufferMore.
Import Buffer.

(** Modelled from the spec: [cl.enqueue_copy] between two device buffers is
    not part of the sources.  Section 4.2: [byte_count] bytes go from
    [[src_offset, src_offset + byte_count)] of the source to
    [[dest_offset, dest_offset + byte_count)] of the destination;
    [RangeError] when either range is not inside its buffer. *)
Definition enqueue_copy_device (dest src : list byte)
    (src_offset dest_offset byte_count : Z) : outcome (list byte) :=
  if (0 <=? byte_count)
     && in_range src_offset byte_count (len src)
     && in_range dest_offset byte_count (len dest)
  then Ret (take (Z.to_nat dest_offset) dest
              ++ take (Z.to_nat byte_count) (drop (Z.to_nat src_offset) src)
              ++ drop (Z.to_nat (dest_offset + byte_count)) dest)
  else Raise RangeError.

(** [BufferPyopencl.update_from_native] *)
Definition update_from_native (self : BufferPyopencl) (offset : Z)
    (source : list byte) (source_offset nbytes : Z) : outcome BufferPyopencl :=
  buf <- enqueue_copy_device (buffer self) source source_offset offset nbytes ;;
  Ret (mkBuffer (capacity self) buf).

(** [BufferPyopencl.copy_native]: a new native buffer of [nbytes] bytes,
    filled from [offset] on ([dest_offset] keeps its default, 0). *)
Definition copy_native (available : Z -> bool) (garbage : nat -> byte)
    (self : BufferPyopencl) (offset nbytes : Z) : outcome (list byte) :=
  buff <- cl_Buffer available garbage nbytes ;;
  enqueue_copy_device buff (buffer self) offset 0 nbytes.

End BufferMore.

(** *** A bound kernel and its description object *)

Module ContextMore.
Import Context.

(** The [KernelPyopencl] that [self.kernels[pyname]] holds, with the
    description object it refers to as the store has it. *)
Definition held_kernel {Function : Type} (st : @State Function)
    (binding : KernelPyopencl Function nat) : KernelPyopencl Function Kernel :=
  mkKernelPyopencl (function binding) (objects st (description binding))
                   (wait_on_call binding).

(** The state once the source is saved, when a path is given. *)
Definition saved {Function : Type} (save_source_as : option string)
    (source : string) (st : @State Function) : @State Function :=
  match save_source_as with
  | Some path => mkState (_kernels st) (objects st) (<[ path := source ]> (files st))
  | None => st
  end.

(** The file system takes the source, when a path is given. *)
Definition save_succeeds (save_file : string -> string -> option (PyExn * option string))
    (save_source_as : option string) (source : string) : Prop :=
  match save_source_as with
  | Some path => save_file path source = None
  | None => True
  end.

End ContextMore.

(** *** FFTPyopencl.transform and itransform *)

Module FFTRun.
Import FFT.

Section WithNative.

(** The native side: [self._fftobj.enqueue_arrays(data)], called with the
    [forward] keyword or without it, and [event.wait()]. *)
Context {Plan Event Data : Type}.
Variable enqueue_arrays : Plan -> Data -> option bool -> outcome (list Event).
Variable event_wait : Event -> outcome unit.

Inductive NativeOp : Type :=
| Enqueue (plan : Plan) (data : Data) (forward : option bool)
| Wait (event : Event).

(** [(event,) = events]: exactly one element, or a [ValueError]. *)
Definition unpack_one (events : list Event) : outcome Event :=
  match events with
  | [event] => Ret event
  | _ => Raise ValueError
  end.

(** [FFTPyopencl.transform] *)
Definition transform (self : @FFTPyopencl Plan) (data : Data)
    (trace : list NativeOp) : outcome Event * list NativeOp :=
  let trace := trace ++ [Enqueue (_fftobj self) data None] in
  match events <- enqueue_arrays (_fftobj self) data None ;; unpack_one events with
  | Raise e => (Raise e, trace)
  | Ret event =>
      if wait_on_call self then
        let trace := trace ++ [Wait event] in
        match event_wait event with
        | Raise e => (Raise e, trace)
        | Ret _ => (Ret event, trace)
        end
      else (Ret event, trace)
  end.

(** [FFTPyopencl.itransform] *)
Definition itransform (self : @FFTPyopencl Plan) (data : Data)
    (trace : list NativeOp) : outcome Event * list NativeOp :=
  let trace := trace ++ [Enqueue (_fftobj self) data (Some false)] in
  match events <- enqueue_arrays (_fftobj self) data (Some false) ;; unpack_one events with
  | Raise e => (Raise e, trace)
  | Ret event =>
      if wait_on_call self then
        let trace := trace ++ [Wait event] in
        match event_wait event with
        | Raise e => (Raise e, trace)
        | Ret _ => (Ret event, trace)
        end
      else (Ret event, trace)
  end.

End WithNative.

End FFTRun.

(** *** ContextPyopencl.__init__ *)

Module ContextInit.

(** What the constructor can raise: the exceptions of [PyExn] and the
    [UnboundLocalError] of a local variable read before it is assigned. *)
Inductive InitExn : Type :=
| PyError (e : PyExn)
| UnboundLocalError.

Inductive init_outcome (A : Type) : Type :=
| IRet (a : A)
| IRaise (e : InitExn).
Arguments IRet {A} a.
Arguments IRaise {A} e.

(** An [outcome] inside the constructor. *)
Definition lift {A B : Type} (m : outcome A) (k : A -> init_outcome B) : init_outcome B :=
  match m with
  | Ret a => k a
  | Raise e => IRaise (PyError e)
  end.

(** [l[i]] on a Python list, negative indices counting from the end. *)
Definition list_getitem {A : Type} (l : list A) (i : Z) : outcome A :=
  let j := if i <? 0 then i + len l else i in
  if (0 <=? j) && (j <? len l) then
    match l !! Z.to_nat j with
    | Some x => Ret x
    | None => Raise IndexError
    end
  else Raise IndexError.

(** The [device] argument: [None], a string or a device object. *)
Inductive DeviceArg (Device : Type) : Type :=
| DeviceNone
| DeviceStr (s : string)
| DeviceObject (d : Device).
Arguments DeviceNone {Device}.
Arguments DeviceStr {Device} s.
Arguments DeviceObject {Device} d.

Section WithNative.

(** The native side and the builtins: [super().__init__()],
    [cl.create_some_context(interactive=False)], [context.devices],
    [device.platform], [cl.get_platforms()], [platform.get_devices()],
    [cl.Context([device])], [cl.CommandQueue(context)],
    [_patch_pyopencl_array(cl, cla, context)], and the integers that
    [map(int, device.split("."))] yields ([ValueError] when a part is not
    an integer). *)
Context {Platform Device NativeContext Queue : Type}.
Variable super_init : outcome unit.
Variable create_some_context : outcome NativeContext.
Variable context_devices : NativeContext -> list Device.
Variable device_platform : Device -> Platform.
Variable get_platforms : outcome (list Platform).
Variable get_devices : Platform -> outcome (list Device).
Variable cl_Context : list Device -> outcome NativeContext.
Variable cl_CommandQueue : NativeContext -> outcome Queue.
Variable _patch_pyopencl_array : NativeContext -> outcome unit.
Variable map_int_split : string -> outcome (list Z).

(** The attributes the constructor sets. *)
Record ContextPyopencl : Type := mkContext {
  context : NativeContext;
  device : Device;
  platform : Platform;
  queue : Queue
}.

(** The end of the constructor, common to all branches. *)
Definition finish (ctx : NativeContext) (dev : Device) (plat : Platform)
    (patch_pyopencl_array : bool) : init_outcome ContextPyopencl :=
  lift (cl_CommandQueue ctx) (fun q =>
  lift (if patch_pyopencl_array then _patch_pyopencl_array ctx else Ret tt) (fun _ =>
  IRet (mkContext ctx dev plat q))).

(** [ContextPyopencl.__init__].  In the branch of a device object the local
    variable [platform] is never assigned: once [cl.get_platforms()] has
    answered, indexing it with [platform] raises [UnboundLocalError]. *)
Definition __init__ (device : DeviceArg Device) (patch_pyopencl_array : bool)
    : init_outcome ContextPyopencl :=
  lift super_init (fun _ =>
  match device with
  | DeviceNone =>
      lift create_some_context (fun ctx =>
      lift (list_getitem (context_devices ctx) 0) (fun dev =>
      finish ctx dev (device_platform dev) patch_pyopencl_array))
  | DeviceStr s =>
      lift (map_int_split s) (fun parts =>
      match parts with
      | [platform; device] =>
          lift get_platforms (fun platforms =>
          lift (list_getitem platforms platform) (fun plat =>
          lift (get_devices plat) (fun devices =>
          lift (list_getitem devices device) (fun dev =>
          lift (cl_Context [dev]) (fun ctx =>
          finish ctx dev plat patch_pyopencl_array)))))
      | _ => IRaise (PyError ValueError)
      end)
  | DeviceObject d =>
      lift get_platforms (fun platforms => IRaise UnboundLocalError)
  end).

End WithNative.

End ContextInit.

(* ===================================================================== *)
(** ** A concrete native layer *)
(* ===================================================================== *)

Module Concrete.
Import Buffer KernelCall Context.

Local Open Scope string_scope.
Local Open Scope list_scope.

(** A buffer of four bytes. *)
Definition buffer0 : BufferPyopencl := mkBuffer 4 [x00; x01; x02; x03].

(** Events are numbered; this launch answers with the number of arguments
    it was given, this wait returns, this cast keeps the value. *)
Definition launch0 (f : string) (n : PyValue) (arg_list : list PyValue) : outcome nat :=
  Ret (length arg_list).
Definition wait0 (event : nat) : outcome unit := Ret tt.
Definition cast0 (t : AType) (value : PyValue) : outcome PyValue := Ret value.

(** This device grants the sub-buffers that start at a multiple of 128
    bytes; the descriptions carry no [pyname]. *)
Definition sub_buffer0 (base_data : nat) (start : Z) : outcome unit :=
  if (start mod 128 =? 0)%Z then Ret tt else Raise AlignmentError.
Definition pyname0 (description : Kernel) : option string := None.

(** Every file can be written; every size can be allocated. *)
Definition save0 (path source : string) : option (PyExn * option string) := None.
Definition available0 (size : Z) : bool := true.

Definition Float64 : AType := mkAType (Some "float64") (Some 8).
Definition Int64 : AType := mkAType (Some "int64") (Some 8).
(** An xobjects struct type: a size, no dtype. *)
Definition StructT : AType := mkAType None (Some 16).

(** [scale(double* x, long n)], one thread per element. *)
Definition scale_description : Kernel :=
  mkKernel (Some "scale") [mkArg "x" true Float64; mkArg "n" false Int64]
           (NThreadsStr "n").
Definition scale_kernel (wait : bool) : KernelPyopencl string Kernel :=
  mkKernelPyopencl "scale" scale_description wait.

Definition x_array : PyValue := VClArray 0 0 "float64" [4%Z].

(** A native layer in which a program is its source and an entry point is
    the program with the name looked up; nothing is specialised. *)
Definition build0 (source : string) : outcome string := Ret source.
Definition getattr0 (prg : string) (c : string) : outcome (string * string) :=
  Ret (prg, c).
Definition specialize0 (source : string) (folders : gset string) : outcome string :=
  Ret source.
Definition dirname0 (path : string) : string := path.

(** Two description objects without native name, no kernel bound yet. *)
Definition st_init : @State (string * string) :=
  mkState ∅ (fun _ => mkKernel None [] (NThreadsInt 1)) ∅.

Definition compile0 (text : string) (kernels : list (string * nat))
    (st : @State (string * string)) : outcome unit * @State (string * string) :=
  add_kernels build0 getattr0 specialize0 dirname0 save0
    [SourceText text] kernels false None st.

(** The state after a first compilation of ["fill"] from the text ["v1"]. *)
Definition st_v1 : @State (string * string) := (compile0 "v1" [("fill", 0%nat)] st_init).2.

(** One description object under two names. *)
Definition shared_kernels : list (string * nat) := [("a", 0%nat); ("b", 0%nat)].

(** [norm(struct s)]: a compound argument passed by value. *)
Definition norm_kernel : KernelPyopencl string Kernel :=
  mkKernelPyopencl "norm" (mkKernel (Some "norm") [mkArg "s" false StructT] (NThreadsInt 1))
                   true.

End Concrete.

(* ===================================================================== *)
(** ** A native layer that can fail *)
(* ===================================================================== *)

Module Concrete2.
Import Context Concrete.

Local Open Scope string_scope.
Local Open Scope list_scope.

(** The text ["bad"] does not build; no program has the entry point
    ["missing"]; the empty path cannot be opened. *)
Definition build1 (source : string) : outcome string :=
  if String.eqb source "bad" then Raise CompilationError else Ret source.
Definition getattr1 (prg : string) (c : string) : outcome (string * string) :=
  if String.eqb c "missing" then Raise AttributeError else Ret (prg, c).

Definition save1 (path source : string) : option (PyExn * option string) :=
  if String.eqb path "" then Some (OSError, None) else None.

Definition compile1 (text : string) (kernels : list (string * nat))
    (save_source_as : option string) (st : @State (string * string))
    : outcome unit * @State (string * string) :=
  add_kernels build1 getattr1 specialize0 dirname0 save1
    [SourceText text] kernels false save_source_as st.

(** A launch of an entry point of such a program, and its wait. *)
Definition launch1 (f : string * string) (n : PyValue) (arg_list : list PyValue)
    : outcome nat :=
  Ret (length arg_list).

(** Two entries, the second without entry point in the program. *)
Definition kernels_ab : list (string * nat) := [("fill", 0%nat); ("missing", 1%nat)].

(** Two platforms of two devices each; a context is the list of its
    devices, its queue their number; the strings ["1.0"] and ["5.0"] are the
    ones read. *)
Definition get_platforms0 : outcome (list nat) := Ret [0%nat; 1%nat].
Definition get_devices0 (p : nat) : outcome (list (nat * nat)) :=
  Ret [(p, 0%nat); (p, 1%nat)].
Definition cl_Context0 (devices : list (nat * nat)) : outcome (list (nat * nat)) :=
  Ret devices.
Definition cl_CommandQueue0 (ctx : list (nat * nat)) : outcome nat := Ret (length ctx).
Definition map_int_split0 (s : string) : outcome (list Z) :=
  if String.eqb s "1.0" then Ret [1%Z; 0%Z]
  else if String.eqb s "5.0" then Ret [5%Z; 0%Z]
  else Raise ValueError.

Definition init0 (device : ContextInit.DeviceArg (nat * nat)) (patch : bool)
    : ContextInit.init_outcome ContextInit.ContextPyopencl :=
  ContextInit.__init__ (Ret tt) (Ret [(0%nat, 0%nat)]) (fun ctx => ctx) fst
    get_platforms0 get_devices0 cl_Context0 cl_CommandQueue0 (fun _ => Ret tt)
    map_int_split0 device patch.

End Concrete2.

(* ===================================================================== *)
(** ** Properties of BufferPyopencl *)
(* ===================================================================== *)

Module BufferProps.
Import Buffer Concrete.

Lemma len_nonneg {A} (l : list A) : 0 <= len l.
Proof. unfold len; lia. Qed.

Lemma in_range_true offset nbytes size :
  in_range offset nbytes size = true <-> 0 <= offset /\ offset + nbytes <= size.
Proof. unfold in_range. rewrite andb_true_iff, !Z.leb_le. tauto. Qed.

Lemma in_range_false offset nbytes size :
  in_range offset nbytes size = false <-> ~ (0 <= offset /\ offset + nbytes <= size).
Proof.
  rewrite <- in_range_true. destruct (in_range offset nbytes size); split; intros; congruence.
Qed.

(** The constructor establishes the invariant. *)
Lemma XBuffer_init_wf available garbage cap b :
  XBuffer_init available garbage cap = Ret b ->
  buffer_wf b /\ capacity b = cap /\ 0 <= cap.
Proof.
  unfold XBuffer_init, _new_buffer, cl_Buffer, buffer_wf.
  destruct (0 <? cap) eqn:E; simpl; [|discriminate].
  destruct (available cap); simpl; [|discriminate].
  intros [= <-]; simpl. apply Z.ltb_lt in E.
  unfold len. rewrite length_map, length_seq. lia.
Qed.

(** What the native copy leaves in the device memory. *)
Lemma length_splice (dest src : list byte) (offset : Z) :
  0 <= offset -> offset + len src <= len dest ->
  len (take (Z.to_nat offset) dest ++ src ++ drop (Z.to_nat (offset + len src)) dest)
  = len dest.
Proof.
  unfold len; intros H0 H1.
  rewrite !length_app, length_take, length_drop. lia.
Qed.

(** [write] keeps the invariant and the capacity. *)
Lemma write_wf b offset data b' :
  buffer_wf b -> write b offset data = Ret b' ->
  buffer_wf b' /\ capacity b' = capacity b.
Proof.
  unfold write, enqueue_copy_to_device, buffer_wf.
  intros Hwf. destruct (in_range _ _ _) eqn:E; simpl; [|discriminate].
  intros [= <-]; simpl. apply in_range_true in E as [H0 H1].
  split; [|reflexivity]. rewrite length_splice; auto.
Qed.

(** Reading back the slice that a splice put in place. *)
Lemma take_drop_splice (dest src : list byte) (n : nat) :
  (n <= length dest)%nat ->
  take (length src) (drop n (take n dest ++ src ++ drop (n + length src) dest)) = src.
Proof.
  intros Hn.
  rewrite drop_app_length'; [|rewrite length_take; lia].
  rewrite take_app_length. reflexivity.
Qed.

(** C1. For every buffer, every offset and every byte payload whose range
    [[offset, offset + len(payload))] lies within the capacity,
    [write(offset, payload)] succeeds and [read(offset, len(payload))] on the
    written buffer returns exactly the bytes of the payload. *)
Theorem write_read_roundtrip (b : BufferPyopencl) (offset : Z) (payload : list byte) :
  buffer_wf b ->
  0 <= offset -> offset + len payload <= capacity b ->
  exists b', write b offset payload = Ret b'
             /\ read b' offset (len payload) = Ret payload.
Proof.
  intros Hwf H0 H1. unfold buffer_wf in Hwf.
  assert (Hin : in_range offset (len payload) (len (buffer b)) = true)
    by (apply in_range_true; lia).
  unfold write, enqueue_copy_to_device. rewrite Hin. simpl.
  eexists; split; [reflexivity|].
  unfold read, bytearray.
  pose proof (len_nonneg payload) as Hp.
  destruct (len payload <? 0) eqn:E; [apply Z.ltb_lt in E; lia|]. simpl.
  unfold enqueue_copy_to_host.
  assert (Hrep : len (replicate (Z.to_nat (len payload)) x00) = len payload)
    by (unfold len; rewrite length_replicate; lia).
  rewrite Hrep, length_splice by lia. rewrite Hin. simpl.
  rewrite length_replicate. f_equal.
  unfold len in *. rewrite Z2Nat.inj_add, !Nat2Z.id by lia.
  apply take_drop_splice. lia.
Qed.

Lemma write_read_roundtrip_witness :
  exists b', write buffer0 1 [xab; xcd] = Ret b'
             /\ read b' 1 (len [xab; xcd]) = Ret [xab; xcd].
Proof.
  apply (write_read_roundtrip buffer0 1 [xab; xcd]).
  - reflexivity.
  - lia.
  - vm_compute. discriminate.
Defined.

(** For every buffer and every pair [(offset, nbytes)] where [nbytes] is the
    length of a payload: when [0 <= offset] and
    [offset + nbytes <= capacity], [write] and [read] succeed ([read]
    returning [nbytes] bytes); for every pair that violates the bound they
    fail with [RangeError]. *)
Lemma read_write_range (b : BufferPyopencl) (offset nbytes : Z) (payload : list byte) :
  buffer_wf b ->
  len payload = nbytes ->
  (0 <= offset /\ offset + nbytes <= capacity b ->
     (exists b', write b offset payload = Ret b')
     /\ (exists data, read b offset nbytes = Ret data /\ len data = nbytes))
  /\ (~ (0 <= offset /\ offset + nbytes <= capacity b) ->
       write b offset payload = Raise RangeError
       /\ read b offset nbytes = Raise RangeError).
Proof.
  intros Hwf Hn. unfold buffer_wf in Hwf.
  pose proof (len_nonneg payload) as Hp.
  assert (Hrep : len (replicate (Z.to_nat nbytes) x00) = nbytes)
    by (unfold len; rewrite length_replicate; unfold len in Hn; lia).
  unfold write, read, bytearray, enqueue_copy_to_device, enqueue_copy_to_host.
  destruct (nbytes <? 0) eqn:E; [apply Z.ltb_lt in E; lia|]. simpl.
  rewrite Hrep, Hn, Hwf.
  split; intros Hr.
  - apply in_range_true in Hr as Hin. rewrite Hin. simpl.
    split; [eexists; reflexivity|].
    eexists; split; [reflexivity|].
    unfold len. rewrite length_take, length_drop, length_replicate.
    unfold len in Hwf. lia.
  - apply in_range_false in Hr. rewrite Hr. simpl. split; reflexivity.
Qed.

Lemma read_write_range_witness :
  (0 <= 1 /\ 1 + 2 <= capacity buffer0 ->
     (exists b', write buffer0 1 [xab; xcd] = Ret b')
     /\ (exists data, read buffer0 1 2 = Ret data /\ len data = 2))
  /\ (~ (0 <= 1 /\ 1 + 2 <= capacity buffer0) ->
       write buffer0 1 [xab; xcd] = Raise RangeError
       /\ read buffer0 1 2 = Raise RangeError).
Proof.
  apply (read_write_range buffer0 1 2 [xab; xcd]); reflexivity.
Defined.

(** The bound is checked on both sides: a negative offset and a range that
    ends past the capacity are refused, by [write] and by [read]. *)
Example range_refused :
  write buffer0 (-1) [xab] = Raise RangeError
  /\ write buffer0 3 [xab; xcd] = Raise RangeError
  /\ read buffer0 (-1) 1 = Raise RangeError
  /\ read buffer0 3 2 = Raise RangeError
  /\ read buffer0 1 2 = Ret [x01; x02].
Proof. repeat split. Qed.

(** C2, as the code has it.  For every buffer, offset, payload and size:
    [write] succeeds when [0 <= offset] and
    [offset + len(payload) <= capacity] and fails with [RangeError]
    otherwise; [read] of a size that is not negative succeeds, returning
    that many bytes, when [0 <= offset] and [offset + size <= capacity],
    and fails with [RangeError] otherwise; [read] of a negative size fails
    with [ValueError], whatever the offset. *)
Theorem read_write_bounds (b : BufferPyopencl) (offset nbytes : Z) (payload : list byte) :
  buffer_wf b ->
  (0 <= offset /\ offset + len payload <= capacity b ->
     exists b', write b offset payload = Ret b')
  /\ (~ (0 <= offset /\ offset + len payload <= capacity b) ->
       write b offset payload = Raise RangeError)
  /\ (0 <= nbytes -> 0 <= offset /\ offset + nbytes <= capacity b ->
       exists data, read b offset nbytes = Ret data /\ len data = nbytes)
  /\ (0 <= nbytes -> ~ (0 <= offset /\ offset + nbytes <= capacity b) ->
       read b offset nbytes = Raise RangeError)
  /\ (nbytes < 0 -> read b offset nbytes = Raise ValueError).
Proof.
  intros Hwf.
  destruct (read_write_range b offset (len payload) payload Hwf eq_refl) as [Hw1 Hw2].
  split; [intros H; apply (Hw1 H)|]. split; [intros H; apply (Hw2 H)|].
  assert (Hrep : 0 <= nbytes -> len (replicate (Z.to_nat nbytes) x00) = nbytes)
    by (intros H; unfold len; rewrite length_replicate; lia).
  split; [|split].
  - intros Hn H.
    destruct (read_write_range b offset nbytes _ Hwf (Hrep Hn)) as [Hr _].
    apply (Hr H).
  - intros Hn H.
    destruct (read_write_range b offset nbytes _ Hwf (Hrep Hn)) as [_ Hr].
    apply (Hr H).
  - intros Hn. unfold read, bytearray.
    destruct (nbytes <? 0) eqn:E; [reflexivity | apply Z.ltb_ge in E; lia].
Qed.

Lemma read_write_bounds_witness :
  (0 <= 1 /\ 1 + len [xab; xcd] <= capacity buffer0 ->
     exists b', write buffer0 1 [xab; xcd] = Ret b')
  /\ (~ (0 <= 1 /\ 1 + len [xab; xcd] <= capacity buffer0) ->
       write buffer0 1 [xab; xcd] = Raise RangeError)
  /\ (0 <= 2 -> 0 <= 1 /\ 1 + 2 <= capacity buffer0 ->
       exists data, read buffer0 1 2 = Ret data /\ len data = 2)
  /\ (0 <= 2 -> ~ (0 <= 1 /\ 1 + 2 <= capacity buffer0) ->
       read buffer0 1 2 = Raise RangeError)
  /\ (2 < 0 -> read buffer0 1 2 = Raise ValueError).
Proof.
  apply (read_write_bounds buffer0 1 2 [xab; xcd]). reflexivity.
Defined.

(** C2 as stated fails for a negative size: the pair [(2, -1)] satisfies
    the bound on a buffer of four bytes and [read] fails; the pair
    [(99, -1)] violates it and [read] fails with [ValueError], not with
    [RangeError]. *)
Lemma read_negative_size_not_range_error :
  buffer_wf buffer0
  /\ (0 <= 2 /\ 2 + -1 <= capacity buffer0)
  /\ read buffer0 2 (-1) = Raise ValueError
  /\ ~ (0 <= 99 /\ 99 + -1 <= capacity buffer0)
  /\ read buffer0 99 (-1) = Raise ValueError
  /\ read buffer0 99 (-1) <> Raise RangeError.
Proof.
  split; [reflexivity|]. split; [vm_compute; split; discriminate|].
  split; [reflexivity|]. split; [vm_compute; intros [_ H]; apply H; reflexivity|].
  split; [reflexivity | discriminate].
Qed.

(** *** The typed view *)

Section NpLike.

Context {Array : Type}.
Variable cl_array_Array : list byte -> Z -> list Z -> outcome Array.

(** The requested dtype does not reach the constructor. *)
Lemma to_nplike_ignores_dtype (self : BufferPyopencl) (offset : Z)
    (dtype1 dtype2 : Dtype) (shape : list Z) :
  to_nplike cl_array_Array self offset dtype1 shape
  = to_nplike cl_array_Array self offset dtype2 shape.
Proof. reflexivity. Qed.

(** C8 on the code.  Whatever the constructor answers, and however the
    dtype of a view is read, [to_nplike] fails to return a view of the
    requested dtype when asked for ["float32"] or when asked for
    ["float64"]: the two calls are the same call of the constructor. *)
Theorem to_nplike_dtype_not_honoured (dtype_of : Array -> Dtype)
    (self : BufferPyopencl) (offset : Z) (shape : list Z) :
  ~ returns_view_of cl_array_Array dtype_of self offset "float32" shape
  \/ ~ returns_view_of cl_array_Array dtype_of self offset "float64" shape.
Proof.
  unfold returns_view_of.
  rewrite (to_nplike_ignores_dtype self offset "float64" "float32" shape).
  destruct (to_nplike cl_array_Array self offset "float32" shape) as [view|e].
  - destruct (decide (dtype_of view = "float32"%string)) as [Heq|Hne].
    + right. intros (v & [= <-] & Hd). rewrite Heq in Hd. discriminate Hd.
    + left. intros (v & [= <-] & Hd). contradiction.
  - left. intros (v & [=] & _).
Qed.

End NpLike.

End BufferProps.

(* ===================================================================== *)
(** ** Properties of KernelPyopencl *)
(* ===================================================================== *)

Module KernelProps.
Import KernelCall Concrete.

Section WithNative.

Context {Function Event : Type}.
Variable native_launch : Function -> PyValue -> list PyValue -> outcome Event.
Variable event_wait : Event -> outcome unit.
Variable atype_call : AType -> PyValue -> outcome PyValue.
Variable sub_buffer : nat -> Z -> outcome unit.
Variable description_pyname : Kernel -> option string.

(** The count check comes first: when it fails nothing else is looked at. *)
Lemma call_count_mismatch (self : KernelPyopencl Function Kernel)
    (kwargs : gmap string PyValue) (trace : list (@NativeOp Function Event)) :
  size kwargs <> length (args (description self)) ->
  __call__ native_launch event_wait atype_call sub_buffer description_pyname self kwargs trace = (Raise AssertionError, trace).
Proof.
  intros Hne. unfold __call__, num_args, len.
  destruct (Z.of_nat (size kwargs) =? Z.of_nat (length (args (description self)))) eqn:E.
  - apply Z.eqb_eq in E. lia.
  - reflexivity.
Qed.

Lemma size_list_to_set_le (l : list string) :
  (size (list_to_set l : gset string) <= length l)%nat.
Proof.
  induction l as [|x l IH].
  - change (list_to_set [] : gset string) with (∅ : gset string).
    rewrite size_empty. simpl. lia.
  - change (list_to_set (x :: l) : gset string)
      with ({[ x ]} ∪ list_to_set l : gset string).
    rewrite size_union_alt, size_singleton.
    assert (size ((list_to_set l : gset string) ∖ {[x]}) <= size (list_to_set l : gset string))%nat
      by (apply subseteq_size; set_solver).
    simpl. lia.
Qed.

Lemma one_missing_size kwargs names :
  one_missing kwargs names -> (size kwargs < length names)%nat.
Proof.
  intros (n & Hin & Hdom).
  rewrite <- size_dom, Hdom.
  pose proof (size_list_to_set_le names) as Hle.
  assert (Hsub : ({[ n ]} : gset string) ⊆ list_to_set names) by set_solver.
  pose proof (size_difference _ _ Hsub) as Hd.
  rewrite size_singleton in Hd.
  assert (size (list_to_set names : gset string) <> 0)%nat.
  { intros Hz. apply size_empty_inv in Hz. set_solver. }
  lia.
Qed.

Lemma one_extra_size kwargs names :
  NoDup names -> one_extra kwargs names -> size kwargs = S (length names).
Proof.
  intros Hnd (e & Hnin & Hdom).
  rewrite <- size_dom, Hdom.
  rewrite size_union by set_solver.
  rewrite size_singleton, size_list_to_set by done. lia.
Qed.

(** C3. A call whose named arguments miss one declared name, or hold one
    name more than the declared ones, fails with the assertion error of the
    count check (the design document's ArgumentCountError); the trace of
    native operations is left as it was, whatever marshaling the
    arguments would have produced: the check comes before any marshaling
    and before any submission. *)
Theorem call_names_mismatch (self : KernelPyopencl Function Kernel)
    (kwargs : gmap string PyValue) (trace : list (@NativeOp Function Event)) :
  NoDup (declared_names (description self)) ->
  one_missing kwargs (declared_names (description self))
  \/ one_extra kwargs (declared_names (description self)) ->
  __call__ native_launch event_wait atype_call sub_buffer description_pyname self kwargs trace = (Raise AssertionError, trace).
Proof.
  intros Hnd Hmis. apply call_count_mismatch.
  unfold declared_names in *.
  destruct Hmis as [Hm | He].
  - apply one_missing_size in Hm. rewrite length_map in Hm. lia.
  - apply one_extra_size in He; [|done]. rewrite length_map in He. lia.
Qed.

(** C9. A call that returns returns the event of the native launch, under
    either wait policy: with [wait_on_call] the trace ends with the launch
    and then the wait on that event, without it with the launch alone; and
    the same call without waiting returns the same event. *)
Theorem call_returns_event (self : KernelPyopencl Function Kernel)
    (kwargs : gmap string PyValue) (trace trace' : list NativeOp) (event : Event) :
  __call__ native_launch event_wait atype_call sub_buffer description_pyname self kwargs trace = (Ret event, trace') ->
  exists n_threads arg_list,
    native_launch (function self) n_threads arg_list = Ret event
    /\ trace' = trace ++ [Launch (function self) n_threads arg_list]
                  ++ (if wait_on_call self then [Wait event] else [])
    /\ __call__ native_launch event_wait atype_call sub_buffer description_pyname (mkKernelPyopencl (function self) (description self) false) kwargs trace
       = (Ret event, trace ++ [Launch (function self) n_threads arg_list]).
Proof.
  intros H. unfold __call__, num_args, resolve_n_threads in *. simpl in *.
  destruct (py_assert _); [|discriminate H].
  destruct (marshal _ _ _) as [arg_list|]; [|discriminate H].
  destruct (match n_threads (description self) with
            | NThreadsStr s => getitem kwargs s
            | NThreadsInt n => Ret (VInt n)
            end) as [n|]; [|discriminate H].
  destruct (native_launch _ _ _) as [ev|] eqn:El; [|discriminate H].
  destruct (wait_on_call self).
  - destruct (event_wait ev); [|discriminate H].
    injection H as <- <-.
    exists n, arg_list. rewrite <- app_assoc. auto.
  - injection H as <- <-. exists n, arg_list. simpl. auto.
Qed.

(** C5, as the code has it.  For a pointer argument of numerical scalar
    type: a [pyopencl.array.Array] is marshalled to the sub-buffer of its
    backing buffer that starts at its offset, which is the result when the
    device grants the sub-buffer and whose error is raised when it does
    not; a value that has a [dtype] and is not such an array fails the
    [isinstance] assertion; a value without [dtype] that is an xobjects
    array ([_shape]) fails with [NotImplementedError]. *)
Theorem to_function_arg_pointer_numeric (description : Kernel) (arg : Arg)
    (value : PyValue) :
  pointer arg = true -> numeric_scalar (atype arg) ->
  (forall base_data offset dtype shape,
      value = VClArray base_data offset dtype shape ->
      to_function_arg atype_call sub_buffer description_pyname description arg value
      = (_ <- sub_buffer base_data offset ;; Ret (VSubBuffer base_data offset)))
  /\ (hasattr_dtype value = true -> device_resident value = false ->
      to_function_arg atype_call sub_buffer description_pyname description arg value
      = Raise AssertionError)
  /\ (hasattr_dtype value = false -> hasattr__shape value = true ->
      to_function_arg atype_call sub_buffer description_pyname description arg value
      = Raise NotImplementedError).
Proof.
  intros Hp Hn. unfold to_function_arg, numeric_scalar, device_resident in *.
  rewrite Hp, bool_decide_eq_true_2 by exact Hn.
  repeat split.
  - intros b o d sh ->. reflexivity.
  - intros Hd Hr. rewrite Hd, Hr. reflexivity.
  - intros Hd Hs. rewrite Hd, Hs. reflexivity.
Qed.

(** C6, as the code has it.  An argument of compound type fails to
    marshal.  Passed by value it fails with [NotImplementedError].
    Declared as a pointer it takes the branch that raises [ValueError]
    (the branch for pointers only knows numerical scalar types), and the
    message of that error reads [self.description.pyname]: the failure is
    the [ValueError] when the description has a [pyname], and the
    [AttributeError] of the missing attribute when it has none. *)
Theorem to_function_arg_compound (description : Kernel) (arg : Arg) (value : PyValue) :
  compound (atype arg) ->
  to_function_arg atype_call sub_buffer description_pyname description arg value
  = if pointer arg then
      match description_pyname description with
      | Some _ => Raise ValueError
      | None => Raise AttributeError
      end
    else Raise NotImplementedError.
Proof.
  intros [Hd Hs]. unfold to_function_arg, raise_invalid_value.
  rewrite Hd. rewrite (bool_decide_eq_false_2 (is_Some None)) by (intros [? [=]]).
  rewrite bool_decide_eq_true_2 by exact Hs.
  reflexivity.
Qed.

(** A pointer argument whose type is not a numerical scalar takes the
    branch that raises [ValueError], whatever the type and the value are. *)
Lemma to_function_arg_pointer_not_numeric (description : Kernel) (arg : Arg)
    (value : PyValue) :
  pointer arg = true -> _dtype (atype arg) = None ->
  to_function_arg atype_call sub_buffer description_pyname description arg value
  = raise_invalid_value description_pyname description.
Proof.
  intros Hp Hd. unfold to_function_arg. rewrite Hp, Hd.
  rewrite bool_decide_eq_false_2 by (intros [? [=]]). reflexivity.
Qed.

(** A pointer argument of numerical scalar type given a value with neither
    [dtype] nor [_shape]: no branch raises or returns, the result is
    [None]. *)
Lemma to_function_arg_falls_through (description : Kernel) (arg : Arg)
    (value : PyValue) :
  pointer arg = true -> numeric_scalar (atype arg) ->
  hasattr_dtype value = false -> hasattr__shape value = false ->
  to_function_arg atype_call sub_buffer description_pyname description arg value
  = Ret VNone.
Proof.
  intros Hp Hn Hd Hs. unfold to_function_arg, numeric_scalar in *.
  rewrite Hp, bool_decide_eq_true_2, Hd, Hs by exact Hn. reflexivity.
Qed.

End WithNative.

(* --------------------------------------------------------------------- *)
(** *** Concrete calls *)
(* --------------------------------------------------------------------- *)

Local Open Scope string_scope.
Local Open Scope list_scope.

Example scale_call_waits :
  __call__ launch0 wait0 cast0 sub_buffer0 pyname0 (scale_kernel true)
    {[ "x" := x_array; "n" := VInt 4 ]} []
  = (Ret 2%nat, [Launch "scale" (VInt 4) [VSubBuffer 0 0; VInt 4]; Wait 2%nat]).
Proof. reflexivity. Qed.

Lemma call_names_mismatch_witness :
  __call__ launch0 wait0 cast0 sub_buffer0 pyname0 (scale_kernel true) {[ "x" := x_array ]} []
  = (Raise AssertionError, []).
Proof.
  apply (call_names_mismatch launch0 wait0 cast0 sub_buffer0 pyname0 (scale_kernel true)
           {[ "x" := x_array ]} []).
  - vm_compute. repeat constructor; set_solver.
  - left. exists "n". split; [vm_compute; set_solver|].
    vm_compute. reflexivity.
Defined.

Lemma call_returns_event_witness :
  exists n_threads arg_list,
    launch0 "scale" n_threads arg_list = Ret 2%nat
    /\ [Launch "scale" (VInt 4) [VSubBuffer 0 0; VInt 4]; Wait 2%nat]
       = [] ++ [Launch "scale" n_threads arg_list] ++ [Wait 2%nat]
    /\ __call__ launch0 wait0 cast0 sub_buffer0 pyname0 (scale_kernel false)
         {[ "x" := x_array; "n" := VInt 4 ]} []
       = (Ret 2%nat, [] ++ [Launch "scale" n_threads arg_list]).
Proof.
  apply (call_returns_event launch0 wait0 cast0 sub_buffer0 pyname0 (scale_kernel true)
           {[ "x" := x_array; "n" := VInt 4 ]} []).
  reflexivity.
Defined.

Lemma to_function_arg_pointer_numeric_witness :
  (forall base_data offset dtype shape,
      x_array = VClArray base_data offset dtype shape ->
      to_function_arg cast0 sub_buffer0 pyname0 scale_description
        (mkArg "x" true Float64) x_array
      = (_ <- sub_buffer0 base_data offset ;; Ret (VSubBuffer base_data offset)))
  /\ (hasattr_dtype x_array = true -> device_resident x_array = false ->
      to_function_arg cast0 sub_buffer0 pyname0 scale_description (mkArg "x" true Float64) x_array = Raise AssertionError)
  /\ (hasattr_dtype x_array = false -> hasattr__shape x_array = true ->
      to_function_arg cast0 sub_buffer0 pyname0 scale_description (mkArg "x" true Float64) x_array
      = Raise NotImplementedError).
Proof.
  apply (to_function_arg_pointer_numeric cast0 sub_buffer0 pyname0 scale_description
           (mkArg "x" true Float64) x_array).
  - reflexivity.
  - exists "float64". reflexivity.
Defined.

Lemma to_function_arg_compound_witness :
  to_function_arg cast0 sub_buffer0 pyname0 scale_description (mkArg "p" false StructT) (VXArray [4%Z])
  = Raise NotImplementedError.
Proof.
  apply (to_function_arg_compound cast0 sub_buffer0 pyname0 scale_description
           (mkArg "p" false StructT) (VXArray [4%Z])).
  split; [reflexivity | exists 16%Z; reflexivity].
Defined.

(** C5 as stated fails: an xobjects array is not device-resident, and given
    for a pointer argument of numerical scalar type it is refused with
    [NotImplementedError], which is neither the assertion failure of the
    [isinstance] check nor a [TypeError]. *)
Lemma pointer_xarray_not_implemented :
  device_resident (VXArray [4%Z]) = false
  /\ to_function_arg cast0 sub_buffer0 pyname0 scale_description (mkArg "x" true Float64) (VXArray [4%Z])
     = Raise NotImplementedError
  /\ to_function_arg cast0 sub_buffer0 pyname0 scale_description (mkArg "x" true Float64) (VXArray [4%Z])
     <> Raise TypeError
  /\ to_function_arg cast0 sub_buffer0 pyname0 scale_description (mkArg "x" true Float64) (VXArray [4%Z])
     <> Raise AssertionError.
Proof. repeat split; discriminate. Qed.

(** A host array is refused by the assertion; a plain integer is not
    refused at all. *)
Example pointer_host_values :
  to_function_arg cast0 sub_buffer0 pyname0 scale_description (mkArg "x" true Float64) (VNdarray "float64" [4%Z])
  = Raise AssertionError
  /\ to_function_arg cast0 sub_buffer0 pyname0 scale_description (mkArg "x" true Float64) (VInt 3) = Ret VNone.
Proof. split; reflexivity. Qed.

(** C6 as stated fails: a pointer argument of compound type is not refused
    with [NotImplementedError].  On a description without [pyname] the
    failure is the [AttributeError] of the message; on one that has it, the
    [ValueError]. *)
Lemma pointer_compound_not_not_implemented :
  compound StructT
  /\ to_function_arg cast0 sub_buffer0 pyname0 scale_description
       (mkArg "p" true StructT) (VXArray [4%Z])
     = Raise AttributeError
  /\ to_function_arg cast0 sub_buffer0 (fun _ => Some "scale") scale_description
       (mkArg "p" true StructT) (VXArray [4%Z])
     = Raise ValueError
  /\ to_function_arg cast0 sub_buffer0 pyname0 scale_description
       (mkArg "p" true StructT) (VXArray [4%Z])
     <> Raise NotImplementedError
  /\ to_function_arg cast0 sub_buffer0 (fun _ => Some "scale") scale_description
       (mkArg "p" true StructT) (VXArray [4%Z])
     <> Raise NotImplementedError.
Proof.
  split; [split; [reflexivity | exists 16%Z; reflexivity]|].
  repeat split; discriminate.
Qed.

(** The sub-buffer is the device's to grant: this one refuses an array that
    starts 16 bytes into its buffer. *)
Example pointer_unaligned_offset :
  to_function_arg cast0 sub_buffer0 pyname0 scale_description
    (mkArg "x" true Float64) x_array = Ret (VSubBuffer 0 0)
  /\ to_function_arg cast0 sub_buffer0 pyname0 scale_description
       (mkArg "x" true Float64) (VClArray 0 16 "float64" [4%Z])
     = Raise AlignmentError.
Proof. split; reflexivity. Qed.

(** The count check hides what marshaling would have raised: with its one
    argument the call fails in marshaling, without it in the count check. *)
Example count_check_before_marshal :
  __call__ launch0 wait0 cast0 sub_buffer0 pyname0 norm_kernel {[ "s" := VInt 0 ]} []
  = (Raise NotImplementedError, [])
  /\ __call__ launch0 wait0 cast0 sub_buffer0 pyname0 norm_kernel ∅ [] = (Raise AssertionError, [])
  /\ __call__ launch0 wait0 cast0 sub_buffer0 pyname0 norm_kernel {[ "s" := VInt 0; "t" := VInt 1 ]} []
     = (Raise AssertionError, []).
Proof. repeat split. Qed.

(** Equally many names, one of them wrong: the count check passes and the
    lookup of the declared name fails, after the earlier arguments were
    marshalled and before anything is submitted. *)
Example call_wrong_name :
  __call__ launch0 wait0 cast0 sub_buffer0 pyname0 (scale_kernel true)
    {[ "x" := x_array; "m" := VInt 4 ]} []
  = (Raise KeyError, []).
Proof. reflexivity. Qed.

End KernelProps.

(* ===================================================================== *)
(** ** Properties of add_kernels *)
(* ===================================================================== *)

Module ContextProps.
Import Context Concrete.

Section WithNative.

Context {Program Function : Type}.
Variable cl_Program_build : string -> outcome Program.
Variable getattr_prg : Program -> string -> outcome Function.
Variable specialize_source : string -> gset string -> outcome string.
Variable dirname : string -> string.
Variable save_file : string -> string -> option (PyExn * option string).

Implicit Types (st : @State Function) (items : list (string * nat)).

Lemma bind_kernels_cons prg pyname kernel rest st :
  bind_kernels getattr_prg prg ((pyname, kernel) :: rest) st
  = match getattr_prg prg (default_c_name pyname kernel st).1 with
    | Raise e => (Raise e, (default_c_name pyname kernel st).2)
    | Ret f =>
        bind_kernels getattr_prg prg rest
          (set_kernel pyname (mkKernelPyopencl f kernel true)
                      (default_c_name pyname kernel st).2)
    end.
Proof.
  simpl. destruct (default_c_name pyname kernel st) as [c st1]. reflexivity.
Qed.

(** After the defaulting step the object has the name that is looked up. *)
Lemma default_c_name_sets pyname kernel st :
  c_name (objects (default_c_name pyname kernel st).2 kernel)
  = Some (default_c_name pyname kernel st).1.
Proof.
  unfold default_c_name. destruct (c_name (objects st kernel)) eqn:E; simpl.
  - exact E.
  - rewrite fn_lookup_insert. reflexivity.
Qed.

(** ... which is the key when the name was unset. *)
Lemma default_c_name_unset pyname kernel st :
  c_name (objects st kernel) = None -> (default_c_name pyname kernel st).1 = pyname.
Proof. unfold default_c_name. intros ->. reflexivity. Qed.

(** A name that is set is never changed by the defaulting step ... *)
Lemma default_c_name_keeps pyname kernel st ref c :
  c_name (objects st ref) = Some c ->
  c_name (objects (default_c_name pyname kernel st).2 ref) = Some c.
Proof.
  unfold default_c_name. intros H.
  destruct (c_name (objects st kernel)) eqn:E; simpl; [exact H|].
  destruct (decide (kernel = ref)) as [->|Hne]; [congruence|].
  rewrite fn_lookup_insert_ne by done. exact H.
Qed.

(** ... and the step leaves the other objects and the mapping alone. *)
Lemma default_c_name_other pyname kernel st ref :
  ref <> kernel -> objects (default_c_name pyname kernel st).2 ref = objects st ref.
Proof.
  unfold default_c_name. intros Hne.
  destruct (c_name (objects st kernel)); simpl; [reflexivity|].
  rewrite fn_lookup_insert_ne by done. reflexivity.
Qed.

Lemma default_c_name_kernels pyname kernel st :
  _kernels (default_c_name pyname kernel st).2 = _kernels st.
Proof. unfold default_c_name. destruct (c_name (objects st kernel)); reflexivity. Qed.

(** The loop never changes a name that is set, whether it ends or raises. *)
Lemma bind_kernels_keeps_c_name prg items : forall st r st' ref c,
  bind_kernels getattr_prg prg items st = (r, st') ->
  c_name (objects st ref) = Some c ->
  c_name (objects st' ref) = Some c.
Proof.
  induction items as [|[pyname kernel] rest IH]; intros st r st' ref c Hrun Hc.
  - simpl in Hrun. injection Hrun as <- <-. exact Hc.
  - rewrite bind_kernels_cons in Hrun.
    pose proof (default_c_name_keeps pyname kernel st ref c Hc) as Hc1.
    destruct (getattr_prg prg _) as [f|e].
    + eapply IH; [exact Hrun|]. simpl. exact Hc1.
    + injection Hrun as <- <-. exact Hc1.
Qed.

(** The loop leaves the bindings of the names it does not meet. *)
Lemma bind_kernels_other_names prg items : forall st r st' other,
  bind_kernels getattr_prg prg items st = (r, st') ->
  other ∉ items.*1 ->
  _kernels st' !! other = _kernels st !! other.
Proof.
  induction items as [|[pyname kernel] rest IH]; intros st r st' other Hrun Hnin.
  - simpl in Hrun. injection Hrun as <- <-. reflexivity.
  - rewrite bind_kernels_cons in Hrun.
    rewrite fmap_cons in Hnin. apply not_elem_of_cons in Hnin as [Hne Hnin].
    simpl in Hne.
    destruct (getattr_prg prg _) as [f|e].
    + erewrite IH; [|exact Hrun|exact Hnin]. simpl.
      rewrite lookup_insert_ne by done. rewrite default_c_name_kernels. reflexivity.
    + injection Hrun as <- <-. rewrite default_c_name_kernels. reflexivity.
Qed.

(** When the loop ends, every entry is bound to the entry point that the
    given program has under the entry's native name. *)
Lemma bind_kernels_binds prg items : forall st st' pyname kernel,
  bind_kernels getattr_prg prg items st = (Ret tt, st') ->
  NoDup items.*1 ->
  (pyname, kernel) ∈ items ->
  exists c f,
    c_name (objects st' kernel) = Some c
    /\ getattr_prg prg c = Ret f
    /\ _kernels st' !! pyname = Some (mkKernelPyopencl f kernel true).
Proof.
  induction items as [|[pyname0 kernel0] rest IH]; intros st st' pyname kernel Hrun Hnd Hin.
  - inversion Hin.
  - rewrite bind_kernels_cons in Hrun.
    rewrite fmap_cons in Hnd. apply NoDup_cons in Hnd as [Hfresh Hnd]. simpl in Hfresh.
    destruct (getattr_prg prg _) as [f|e] eqn:Hget; [|discriminate Hrun].
    apply elem_of_cons in Hin as [Heq | Hin].
    + injection Heq as -> ->.
      exists (default_c_name pyname0 kernel0 st).1, f.
      split; [|split].
      * eapply bind_kernels_keeps_c_name; [exact Hrun|].
        simpl. apply default_c_name_sets.
      * exact Hget.
      * erewrite bind_kernels_other_names; [|exact Hrun|exact Hfresh].
        simpl. apply lookup_insert_eq.
    + eapply IH; eauto.
Qed.

(** When the loop ends, the object of an entry that was without a native
    name when its turn came carries the entry's key. *)
Lemma bind_kernels_sets_c_name prg pre : forall post st st' pyname kernel,
  bind_kernels getattr_prg prg (pre ++ (pyname, kernel) :: post) st = (Ret tt, st') ->
  kernel ∉ pre.*2 ->
  c_name (objects st kernel) = None ->
  c_name (objects st' kernel) = Some pyname.
Proof.
  induction pre as [|[pyname0 kernel0] pre IH]; intros post st st' pyname kernel Hrun Hnin Hnone.
  - simpl app in Hrun. rewrite bind_kernels_cons in Hrun.
    destruct (getattr_prg prg _) as [f|e]; [|discriminate Hrun].
    eapply bind_kernels_keeps_c_name; [exact Hrun|]. simpl.
    rewrite default_c_name_sets, default_c_name_unset by exact Hnone. reflexivity.
  - simpl app in Hrun. rewrite bind_kernels_cons in Hrun.
    rewrite fmap_cons in Hnin. apply not_elem_of_cons in Hnin as [Hne Hnin]. simpl in Hne.
    destruct (getattr_prg prg _) as [f|e]; [|discriminate Hrun].
    eapply IH; [exact Hrun|exact Hnin|]. simpl.
    rewrite default_c_name_other by done. exact Hnone.
Qed.

(** Saving the source touches neither the mapping nor the objects. *)
Lemma save_source_frame source save st r st1 :
  save_source save_file source save st = (r, st1) ->
  _kernels st1 = _kernels st /\ objects st1 = objects st.
Proof.
  unfold save_source. destruct save as [path|]; [|intros [= <- <-]; auto].
  destruct (save_file path source) as [[e [text|]]|]; intros [= <- <-]; auto.
Qed.

Lemma add_kernels_inv sources kernels specialize save st r st' :
  add_kernels cl_Program_build getattr_prg specialize_source dirname save_file
    sources kernels specialize save st = (Ret r, st') ->
  exists source prg st0,
    final_source specialize_source dirname sources specialize = Ret source
    /\ cl_Program_build source = Ret prg
    /\ objects st0 = objects st
    /\ bind_kernels getattr_prg prg kernels st0 = (Ret r, st').
Proof.
  unfold add_kernels.
  destruct (final_source _ _ _ _) as [source|]; [|discriminate].
  destruct (save_source save_file source save st) as [[[]|] st0] eqn:Hs; [|discriminate].
  destruct (cl_Program_build source) as [prg|] eqn:Hb; [|discriminate].
  intros Hrun. exists source, prg, st0.
  split; [reflexivity|]. split; [exact Hb|].
  split; [apply (save_source_frame _ _ _ _ _ Hs) | exact Hrun].
Qed.

(** C7. When [add_kernels] returns, every name of the kernel set it was
    given is bound to a [KernelPyopencl] around the entry point of the
    program just built from the given sources, whatever the name was bound
    to before: compiling again under a name replaces the earlier binding. *)
Theorem add_kernels_rebinds sources kernels specialize save st st' pyname kernel :
  NoDup kernels.*1 ->
  (pyname, kernel) ∈ kernels ->
  add_kernels cl_Program_build getattr_prg specialize_source dirname save_file
    sources kernels specialize save st = (Ret tt, st') ->
  exists source prg c f,
    final_source specialize_source dirname sources specialize = Ret source
    /\ cl_Program_build source = Ret prg
    /\ c_name (objects st' kernel) = Some c
    /\ getattr_prg prg c = Ret f
    /\ _kernels st' !! pyname = Some (mkKernelPyopencl f kernel true).
Proof.
  intros Hnd Hin Hrun.
  apply add_kernels_inv in Hrun as (source & prg & st0 & Hsrc & Hb & _ & Hrun).
  destruct (bind_kernels_binds prg kernels st0 st' pyname kernel Hrun Hnd Hin)
    as (c & f & Hc & Hf & Hk).
  exists source, prg, c, f. auto.
Qed.

(** C10, as the code has it.  When [add_kernels] returns, the description
    object of an entry that had no native name when the loop reached it
    (none before the call, and the object is not also the description of an
    earlier entry) has the entry's key as its [c_name]: the object the
    caller handed in is changed. *)
Theorem add_kernels_sets_c_name sources pre post specialize save st st' pyname kernel :
  add_kernels cl_Program_build getattr_prg specialize_source dirname save_file
    sources (pre ++ (pyname, kernel) :: post) specialize save st = (Ret tt, st') ->
  kernel ∉ pre.*2 ->
  c_name (objects st kernel) = None ->
  c_name (objects st' kernel) = Some pyname.
Proof.
  intros Hrun Hnin Hnone.
  apply add_kernels_inv in Hrun as (source & prg & st0 & _ & _ & Hobj & Hrun).
  eapply bind_kernels_sets_c_name; [exact Hrun|exact Hnin|].
  rewrite Hobj. exact Hnone.
Qed.

End WithNative.

(* --------------------------------------------------------------------- *)
(** *** Two compilations under one name *)
(* --------------------------------------------------------------------- *)

Local Open Scope string_scope.
Local Open Scope list_scope.

Example first_compile :
  (compile0 "v1" [("fill", 0%nat)] st_init).1 = Ret tt
  /\ _kernels st_v1 !! "fill" = Some (mkKernelPyopencl ("v1", "fill") 0%nat true).
Proof. split; reflexivity. Qed.

Lemma add_kernels_rebinds_witness :
  exists source prg c f,
    final_source specialize0 dirname0 [SourceText "v2"] false = Ret source
    /\ build0 source = Ret prg
    /\ c_name (objects (compile0 "v2" [("fill", 1%nat)] st_v1).2 1%nat) = Some c
    /\ getattr0 prg c = Ret f
    /\ _kernels (compile0 "v2" [("fill", 1%nat)] st_v1).2 !! "fill"
       = Some (mkKernelPyopencl f 1%nat true).
Proof.
  apply (add_kernels_rebinds build0 getattr0 specialize0 dirname0 save0
           [SourceText "v2"] [("fill", 1%nat)] false None st_v1).
  - vm_compute. repeat constructor; set_solver.
  - vm_compute. set_solver.
  - reflexivity.
Defined.

Example second_compile :
  _kernels (compile0 "v2" [("fill", 1%nat)] st_v1).2 !! "fill"
  = Some (mkKernelPyopencl ("v2", "fill") 1%nat true).
Proof. reflexivity. Qed.

Lemma add_kernels_sets_c_name_witness :
  c_name (objects (compile0 "v1" ([] ++ ("fill", 0%nat) :: []) st_init).2 0%nat)
  = Some "fill".
Proof.
  apply (add_kernels_sets_c_name build0 getattr0 specialize0 dirname0 save0
           [SourceText "v1"] [] [] false None st_init).
  - reflexivity.
  - vm_compute. set_solver.
  - reflexivity.
Defined.

(** C10 as stated fails when one description object is given under two
    names: it has no native name before the call, the call returns, and the
    object carries the first key; the second key is not assigned. *)
Lemma shared_description_keeps_first_key :
  ("b", 0%nat) ∈ shared_kernels
  /\ c_name (objects st_init 0%nat) = None
  /\ (compile0 "v1" shared_kernels st_init).1 = Ret tt
  /\ c_name (objects (compile0 "v1" shared_kernels st_init).2 0%nat) = Some "a"
  /\ c_name (objects (compile0 "v1" shared_kernels st_init).2 0%nat) <> Some "b".
Proof.
  split; [unfold shared_kernels; set_solver|].
  repeat split. vm_compute. discriminate.
Qed.

End ContextProps.

(* ===================================================================== *)
(** ** Properties of FFTPyopencl *)
(* ===================================================================== *)

Module FFTProps.
Import FFT.

(** *** The logarithm in base two *)

Lemma ln_le_minus_1 (z : R) : (0 < z -> ln z <= z - 1)%R.
Proof.
  intros Hz. pose proof (exp_ineq1_le (ln z)) as H.
  rewrite exp_ln in H by exact Hz. lra.
Qed.

Lemma ln_2_lower : (1 / 2 < ln 2)%R.
Proof.
  assert (He : (exp (1 / 2) < 2)%R).
  { pose proof exp_le_3 as H3.
    assert (Hsq : (exp (1 / 2) * exp (1 / 2) = exp 1)%R)
      by (rewrite <- exp_plus; f_equal; lra).
    pose proof (exp_pos (1 / 2)) as Hp. nra. }
  rewrite <- (ln_exp (1 / 2)). apply ln_increasing; [apply exp_pos | exact He].
Qed.

Lemma ln_2_upper : (ln 2 <= 1)%R.
Proof. pose proof (ln_le_minus_1 2). lra. Qed.

Lemma ln_pow2 (k : nat) : (ln (2 ^ k) = INR k * ln 2)%R.
Proof. apply ln_pow. lra. Qed.

(** [np.modf] on a real between two consecutive whole numbers. *)
Lemma np_modf_frac_between (x : R) (k : Z) :
  (0 <= IZR k -> IZR k <= x -> x < IZR k + 1 -> np_modf_frac x = x - IZR k)%R.
Proof.
  intros H0 H1 H2. unfold np_modf_frac.
  destruct (Rle_dec 0 x) as [_|Hn]; [|lra].
  unfold frac_part. rewrite <- (Int_part_spec x k); [reflexivity|]. lra.
Qed.

Lemma np_isclose_0 (a : R) :
  (0 <= a)%R -> np_isclose a 0 = true <-> (a <= 1 / 100000000)%R.
Proof.
  intros Ha. unfold np_isclose, atol, rtol.
  rewrite Rminus_0_r, Rabs_R0, (Rabs_pos_eq a) by exact Ha.
  destruct (Rle_dec _ _) as [H|H]; split; intros; try lra; try discriminate; reflexivity.
Qed.

(** An extent [2^k + d] with [0 <= d < 2^k]: the quotient of logarithms is
    [k + ln(1 + d / 2^k) / ln 2]. *)
Lemma log2_split (k : nat) (d : R) :
  (0 <= d -> d < 2 ^ k ->
   let x := ln (2 ^ k + d) / ln 2 in
   x = INR k + ln (1 + d / 2 ^ k) / ln 2
   /\ INR k <= x /\ x < INR k + 1)%R.
Proof.
  intros Hd0 Hd1 x. pose proof ln_2_lower as Hl2.
  assert (Hp : (0 < 2 ^ k)%R) by (apply pow_lt; lra).
  assert (Hq0 : (0 <= d / 2 ^ k)%R) by (apply Rmult_le_pos; [lra | left; apply Rinv_0_lt_compat; lra]).
  assert (Hq1 : (d / 2 ^ k < 1)%R).
  { apply (Rmult_lt_reg_r (2 ^ k)); [exact Hp|]. field_simplify; lra. }
  assert (Hx : (x = INR k + ln (1 + d / 2 ^ k) / ln 2)%R).
  { unfold x. replace (2 ^ k + d)%R with (2 ^ k * (1 + d / 2 ^ k))%R by (field; lra).
    rewrite ln_mult by lra. rewrite ln_pow2. field. lra. }
  split; [exact Hx|]. rewrite Hx.
  assert (Hln0 : (0 <= ln (1 + d / 2 ^ k))%R).
  { destruct (Req_dec (d / 2 ^ k) 0) as [->|Hne].
    - rewrite Rplus_0_r, ln_1. lra.
    - left. rewrite <- ln_1. apply ln_increasing; lra. }
  assert (Hln1 : (ln (1 + d / 2 ^ k) < ln 2)%R) by (apply ln_increasing; lra).
  split.
  - assert (0 <= ln (1 + d / 2 ^ k) / ln 2)%R
      by (apply Rmult_le_pos; [lra | left; apply Rinv_0_lt_compat; lra]).
    lra.
  - assert (ln (1 + d / 2 ^ k) / ln 2 < 1)%R.
    { apply (Rmult_lt_reg_r (ln 2)); [lra|]. field_simplify; lra. }
    lra.
Qed.

(** The test on an extent [2^k + d] with [0 <= d < 2^k]: it passes exactly
    when [log2(1 + d / 2^k)] is within the tolerance. *)
Lemma log2_is_whole_split (k : nat) (d : Z) :
  0 <= d < 2 ^ Z.of_nat k ->
  log2_is_whole (2 ^ Z.of_nat k + d) = true
  <-> (ln (1 + IZR d / 2 ^ k) / ln 2 <= 1 / 100000000)%R.
Proof.
  intros [Hd0 Hd1].
  assert (Hpos : 0 < 2 ^ Z.of_nat k) by (apply Z.pow_pos_nonneg; lia).
  unfold log2_is_whole.
  destruct (2 ^ Z.of_nat k + d <? 0) eqn:E1; [apply Z.ltb_lt in E1; lia|].
  destruct (2 ^ Z.of_nat k + d =? 0) eqn:E2; [apply Z.eqb_eq in E2; lia|].
  assert (HR : (IZR (2 ^ Z.of_nat k + d) = 2 ^ k + IZR d)%R)
    by (rewrite plus_IZR, <- pow_IZR; reflexivity).
  rewrite HR.
  assert (Hd0R : (0 <= IZR d)%R) by (apply IZR_le; exact Hd0).
  assert (Hd1R : (IZR d < 2 ^ k)%R).
  { replace (2 ^ k)%R with (IZR (2 ^ Z.of_nat k)) by (rewrite <- pow_IZR; reflexivity).
    apply IZR_lt; exact Hd1. }
  destruct (log2_split k (IZR d) Hd0R Hd1R) as (Hx & Hlo & Hhi).
  rewrite INR_IZR_INZ in Hx, Hlo, Hhi.
  assert (Hk : (0 <= IZR (Z.of_nat k))%R) by (apply IZR_le; lia).
  rewrite (np_modf_frac_between _ (Z.of_nat k)) by assumption.
  rewrite np_isclose_0 by lra.
  rewrite Hx. split; intros; lra.
Qed.

(** In this model every power of two passes the test. *)
Lemma log2_is_whole_power (k : nat) : log2_is_whole (2 ^ Z.of_nat k) = true.
Proof.
  assert (Hpos : 0 < 2 ^ Z.of_nat k) by (apply Z.pow_pos_nonneg; lia).
  rewrite <- (Z.add_0_r (2 ^ Z.of_nat k)).
  apply log2_is_whole_split; [lia|].
  unfold Rdiv at 2. rewrite Rmult_0_l, Rplus_0_r, ln_1.
  unfold Rdiv. rewrite Rmult_0_l. lra.
Qed.

Lemma log2_is_whole_8 : log2_is_whole 8 = true.
Proof. exact (log2_is_whole_power 3). Qed.

(** [log2(6) = 2.58...]: the extent 6 does not pass. *)
Lemma log2_is_whole_6 : log2_is_whole 6 = false.
Proof.
  apply not_true_is_false. change 6 with (2 ^ Z.of_nat 2 + 2).
  rewrite log2_is_whole_split by (simpl; lia).
  pose proof ln_2_lower as Hlo. pose proof ln_2_upper as Hup.
  replace (1 + 2 / 2 ^ 2)%R with (/ (2 / 3))%R by (simpl; field).
  rewrite ln_Rinv by lra.
  pose proof (ln_le_minus_1 (2 / 3)) as H23.
  assert (H13 : (1 / 3 <= - ln (2 / 3))%R) by lra.
  intros Hc.
  assert (Hm : (- ln (2 / 3) <= 1 / 100000000 * ln 2)%R).
  { apply (Rmult_le_compat_r (ln 2)) in Hc; [|lra].
    unfold Rdiv in Hc at 1. rewrite Rmult_assoc, Rinv_l, Rmult_1_r in Hc by lra.
    exact Hc. }
  nra.
Qed.

(** [log2(2^28 + 1) = 28.0000000054]: the extent [2^28 + 1] passes. *)
Lemma log2_is_whole_268435457 : log2_is_whole 268435457 = true.
Proof.
  change 268435457 with (2 ^ Z.of_nat 28 + 1).
  apply log2_is_whole_split; [simpl; lia|].
  pose proof ln_2_lower as Hlo.
  assert (Hp : (0 < 2 ^ 28)%R) by (apply pow_lt; lra).
  assert (Hq : (0 < 1 / 2 ^ 28)%R) by (apply Rdiv_lt_0_compat; lra).
  pose proof (ln_le_minus_1 (1 + 1 / 2 ^ 28)) as Hle.
  assert (Hle' : (ln (1 + 1 / 2 ^ 28) <= 1 / 2 ^ 28)%R) by lra.
  assert (Hv : (1 / 2 ^ 28 = 1 / 268435456)%R) by (simpl; field).
  rewrite Hv in *.
  apply (Rmult_le_reg_r (ln 2)); [lra|].
  unfold Rdiv at 1. rewrite Rmult_assoc, Rinv_l, Rmult_1_r by lra.
  nra.
Qed.

Lemma not_power_of_two_268435457 : ~ power_of_two 268435457.
Proof.
  intros [k Hk]. destruct k as [|k].
  - discriminate Hk.
  - assert (He : Z.even 268435457 = true).
    { rewrite Hk, Nat2Z.inj_succ, Z.pow_succ_r by lia.
      rewrite Z.even_mul. reflexivity. }
    discriminate He.
Qed.

Lemma not_power_of_two_6 : ~ power_of_two 6.
Proof.
  intros [k Hk].
  destruct k as [|[|[|k]]]; try discriminate Hk.
  assert (2 ^ 3 <= 2 ^ Z.of_nat (S (S (S k)))) by (apply Z.pow_le_mono_r; lia).
  lia.
Qed.

(** *** The constructor *)

Lemma check_extents_ok (shape : list Z) (axes : list Z) :
  check_extents shape axes = Ret tt
  <-> Forall (fun ii => exists nn, getitem shape ii = Ret nn /\ log2_is_whole nn = true) axes.
Proof.
  induction axes as [|ii rest IH]; simpl.
  - split; [constructor | reflexivity].
  - rewrite Forall_cons, <- IH.
    destruct (getitem shape ii) as [nn|e]; simpl.
    + destruct (log2_is_whole nn) eqn:E; simpl.
      * split; [intros H; split; [exists nn; auto | exact H] | tauto].
      * split; [discriminate | intros [(n & [= <-] & Hn) _]; congruence].
    + split; [discriminate | intros [(n & [=] & _) _]].
Qed.

(** What passes the two assertions: the rank exceeds the largest axis, and
    every axis but the last has an extent that passes the numerical test. *)
Lemma validate_ok (shape : list Z) (axes : list Z) :
  validate shape axes = Ret tt
  <-> (exists m, py_max axes = Ret m /\ m < len shape)
      /\ Forall (fun ii => exists nn, getitem shape ii = Ret nn /\ log2_is_whole nn = true)
                (but_last axes).
Proof.
  unfold validate. rewrite <- check_extents_ok.
  destruct (py_max axes) as [m|e]; simpl.
  - destruct (m <? len shape) eqn:E; simpl.
    + apply Z.ltb_lt in E. split; [eauto | tauto].
    + apply Z.ltb_ge in E.
      split; [discriminate | intros [(m' & [= <-] & Hlt) _]; lia].
  - split; [discriminate | intros [(m' & [=] & _) _]].
Qed.

(** The rank assertion. *)
Lemma validate_rank (shape : list Z) (axes : list Z) (m : Z) :
  py_max axes = Ret m -> len shape <= m -> validate shape axes = Raise AssertionError.
Proof.
  intros Hm Hle. unfold validate. rewrite Hm. simpl.
  destruct (m <? len shape) eqn:E; [apply Z.ltb_lt in E; lia | reflexivity].
Qed.

Lemma validate_6_4 : validate [6; 4] [0; 1] = Raise AssertionError.
Proof.
  unfold validate, but_last. simpl py_max. simpl bind.
  change (check_extents [6; 4] (take 1 [0; 1]))
    with (_ <- py_assert (log2_is_whole 6) ;; Ret tt).
  rewrite log2_is_whole_6. reflexivity.
Qed.

Lemma validate_8_4 : validate [8; 4] [0; 1] = Ret tt.
Proof.
  unfold validate, but_last. simpl py_max. simpl bind.
  change (check_extents [8; 4] (take 1 [0; 1]))
    with (_ <- py_assert (log2_is_whole 8) ;; Ret tt).
  rewrite log2_is_whole_8. reflexivity.
Qed.

Lemma validate_268435457_4 : validate [268435457; 4] [0; 1] = Ret tt.
Proof.
  unfold validate, but_last. simpl py_max. simpl bind.
  change (check_extents [268435457; 4] (take 1 [0; 1]))
    with (_ <- py_assert (log2_is_whole 268435457) ;; Ret tt).
  rewrite log2_is_whole_268435457. reflexivity.
Qed.

Section WithNative.

Context {Plan : Type}.
Variable gpyfft_FFT : list Z -> list Z -> outcome Plan.

(** A construction that fails an assertion has asked for no native plan. *)
Lemma init_validation_first shape axes wait (trace : list NativeOp) e :
  validate shape axes = Raise e ->
  __init__ gpyfft_FFT shape axes wait trace = (Raise e, trace).
Proof. intros H. unfold __init__. rewrite H. reflexivity. Qed.

(** A construction that passes them asks for the native plan. *)
Lemma init_validated shape axes wait (trace : list NativeOp) :
  validate shape axes = Ret tt ->
  __init__ gpyfft_FFT shape axes wait trace
  = (plan <- gpyfft_FFT shape axes ;; Ret (mkFFT axes wait plan),
     trace ++ [BuildPlan shape axes]).
Proof.
  intros H. unfold __init__. rewrite H.
  destruct (gpyfft_FFT shape axes); reflexivity.
Qed.

(** The rank is checked, before any native plan is built. *)
Lemma init_rank_violation shape axes wait (trace : list NativeOp) m :
  py_max axes = Ret m -> len shape <= m ->
  __init__ gpyfft_FFT shape axes wait trace = (Raise AssertionError, trace).
Proof. intros Hm Hle. apply init_validation_first. eapply validate_rank; eauto. Qed.

(** A first transformed axis of extent 6 is refused, before any native plan
    is built; extents [(8, 4)] with axes [(0, 1)] reach the native plan. *)
Lemma init_6_4 wait (trace : list NativeOp) :
  __init__ gpyfft_FFT [6; 4] [0; 1] wait trace = (Raise AssertionError, trace).
Proof. apply init_validation_first, validate_6_4. Qed.

Lemma init_8_4 wait (trace : list NativeOp) :
  __init__ gpyfft_FFT [8; 4] [0; 1] wait trace
  = (plan <- gpyfft_FFT [8; 4] [0; 1] ;; Ret (mkFFT [0; 1] wait plan),
     trace ++ [BuildPlan [8; 4] [0; 1]]).
Proof. apply init_validated, validate_8_4. Qed.

(** C4 at the extent [2^28 + 1].  The first transformed axis, which is not
    the last, has an extent that is not a power of two; both assertions
    pass and the native plan is asked for. *)
Theorem init_accepts_268435457 wait (trace : list NativeOp) :
  getitem [268435457; 4] 0 = Ret 268435457
  /\ ~ power_of_two 268435457
  /\ __init__ gpyfft_FFT [268435457; 4] [0; 1] wait trace
     = (plan <- gpyfft_FFT [268435457; 4] [0; 1] ;; Ret (mkFFT [0; 1] wait plan),
        trace ++ [BuildPlan [268435457; 4] [0; 1]]).
Proof.
  split; [reflexivity|]. split; [exact not_power_of_two_268435457|].
  apply init_validated, validate_268435457_4.
Qed.

End WithNative.

End FFTProps.

(* ===================================================================== *)
(** ** More on KernelPyopencl.__call__ *)
(* ===================================================================== *)

Module KernelMore.
Import KernelCall Concrete.

Section WithNative.

Context {Function Event : Type}.
Variable native_launch : Function -> PyValue -> list PyValue -> outcome Event.
Variable event_wait : Event -> outcome unit.
Variable atype_call : AType -> PyValue -> outcome PyValue.
Variable sub_buffer : nat -> Z -> outcome unit.
Variable description_pyname : Kernel -> option string.

(** The loop returns exactly when every declared argument is supplied and
    marshals; the list it returns follows the declaration order. *)
Lemma marshal_ok (description : Kernel) (description_args : list Arg)
    (kwargs : gmap string PyValue) (arg_list : list PyValue) :
  marshal atype_call sub_buffer description_pyname description description_args kwargs
  = Ret arg_list
  <-> Forall2 (fun arg a => exists vv, kwargs !! name arg = Some vv
                            /\ to_function_arg atype_call sub_buffer description_pyname
                                 description arg vv = Ret a)
              description_args arg_list.
Proof.
  revert arg_list. induction description_args as [|arg rest IH]; intros arg_list; simpl.
  - split.
    + intros [= <-]. constructor.
    + intros H. apply Forall2_nil_inv_l in H. subst. reflexivity.
  - unfold getitem. split.
    + destruct (kwargs !! name arg) as [vv|] eqn:Hk; simpl; [|discriminate].
      destruct (to_function_arg _ _ _ _ arg vv) as [a|] eqn:Ha; simpl; [|discriminate].
      destruct (marshal _ _ _ _ rest kwargs) as [l|] eqn:Hm; simpl; [|discriminate].
      intros [= <-]. constructor; [eauto | apply IH; reflexivity].
    + intros H. apply Forall2_cons_inv_l in H as (a & l & (vv & Hk & Ha) & Hl & ->).
      apply IH in Hl. rewrite Hk. simpl. rewrite Ha. simpl. rewrite Hl. reflexivity.
Qed.

(** A call that left something in the trace passed the count check,
    marshalled every argument and resolved the thread count. *)
Lemma call_launched (self : KernelPyopencl Function Kernel)
    (kwargs : gmap string PyValue) (trace trace' : list NativeOp) r :
  __call__ native_launch event_wait atype_call sub_buffer description_pyname self kwargs trace = (r, trace') ->
  trace' <> trace ->
  exists n arg_list,
    size kwargs = length (args (description self))
    /\ marshal atype_call sub_buffer description_pyname (description self)
         (args (description self)) kwargs = Ret arg_list
    /\ resolve_n_threads self kwargs = Ret n.
Proof.
  unfold __call__, num_args, py_assert, len. intros H Hne.
  destruct (Z.of_nat (size kwargs) =? _) eqn:E; [|injection H as _ <-; contradiction].
  apply Z.eqb_eq in E.
  destruct (marshal _ _ _) as [arg_list|]; [|injection H as _ <-; contradiction].
  destruct (resolve_n_threads _ _) as [n|]; [|injection H as _ <-; contradiction].
  exists n, arg_list. repeat split. lia.
Qed.

(** X1. A call that returns has launched the native function once, with the
    marshalled values of the declared arguments in declaration order
    (whatever the order of the keywords) and with the thread count of the
    description: the value supplied under the name it gives, as supplied,
    or the number it gives. *)
Theorem call_launches_in_declaration_order (self : KernelPyopencl Function Kernel)
    (kwargs : gmap string PyValue) (trace trace' : list NativeOp) (event : Event) :
  __call__ native_launch event_wait atype_call sub_buffer description_pyname self kwargs trace = (Ret event, trace') ->
  exists n arg_list,
    Forall2 (fun arg a => exists vv, kwargs !! name arg = Some vv
                          /\ to_function_arg atype_call sub_buffer description_pyname
                               (description self) arg vv = Ret a)
            (args (description self)) arg_list
    /\ match n_threads (description self) with
       | NThreadsStr s => kwargs !! s = Some n
       | NThreadsInt z => n = VInt z
       end
    /\ native_launch (function self) n arg_list = Ret event
    /\ trace' = trace ++ Launch (function self) n arg_list
                  :: (if wait_on_call self then [Wait event] else []).
Proof.
  unfold __call__. intros H.
  destruct (py_assert _); [|discriminate H].
  destruct (marshal _ _ _) as [arg_list|] eqn:Hm; [|discriminate H].
  destruct (resolve_n_threads _ _) as [n|] eqn:Hn; [|discriminate H].
  destruct (native_launch _ _ _) as [ev|] eqn:Hl; [|discriminate H].
  exists n, arg_list. split; [apply marshal_ok; exact Hm|].
  split.
  { unfold resolve_n_threads, getitem in Hn.
    destruct (n_threads (description self)) as [s|z].
    - destruct (kwargs !! s); [injection Hn as ->; reflexivity | discriminate Hn].
    - injection Hn as <-. reflexivity. }
  destruct (wait_on_call self).
  - destruct (event_wait ev); [|discriminate H].
    injection H as <- <-. split; [exact Hl|]. rewrite <- app_assoc. reflexivity.
  - injection H as <- <-. split; [exact Hl | reflexivity].
Qed.

(** Every declared name of a marshalled call is supplied. *)
Lemma marshal_names_supplied (description : Kernel) (description_args : list Arg)
    (kwargs : gmap string PyValue) (arg_list : list PyValue) :
  marshal atype_call sub_buffer description_pyname description description_args kwargs
  = Ret arg_list ->
  forall arg, arg ∈ description_args -> is_Some (kwargs !! name arg).
Proof.
  intros Hm. apply marshal_ok in Hm.
  induction Hm as [|arg a rest l (vv & Hk & _) _ IH]; intros arg' Hin.
  - inversion Hin.
  - apply elem_of_cons in Hin as [-> | Hin]; [eauto | auto].
Qed.

(** As many supplied names as declared ones, all declared ones among
    them, no declared name twice: the two sets of names are the same. *)
Lemma supplied_names_exact (description_args : list Arg) (kwargs : gmap string PyValue) :
  NoDup (map name description_args) ->
  size kwargs = length description_args ->
  (forall arg, arg ∈ description_args -> is_Some (kwargs !! name arg)) ->
  dom kwargs = list_to_set (map name description_args).
Proof.
  intros Hnd Hsz Hall.
  symmetry. apply set_subseteq_size_eq.
  - intros s Hs. apply elem_of_list_to_set in Hs.
    apply list_elem_of_fmap in Hs as (arg & -> & Hin).
    apply elem_of_dom. auto.
  - rewrite size_dom, size_list_to_set by exact Hnd.
    rewrite length_map. lia.
Qed.

(** X2. With distinct declared names, a call gets as far as the native
    launch only when the supplied names are exactly the declared ones. *)
Theorem call_launches_only_exact_names (self : KernelPyopencl Function Kernel)
    (kwargs : gmap string PyValue) (trace trace' : list NativeOp) r :
  NoDup (declared_names (description self)) ->
  __call__ native_launch event_wait atype_call sub_buffer description_pyname self kwargs trace = (r, trace') ->
  trace' <> trace ->
  dom kwargs = list_to_set (declared_names (description self)).
Proof.
  intros Hnd H Hne.
  destruct (call_launched self kwargs trace trace' r H Hne) as (n & arg_list & Hsz & Hm & _).
  apply supplied_names_exact; [exact Hnd | exact Hsz |].
  eapply marshal_names_supplied; eauto.
Qed.

(** X3. With distinct declared names, a thread count given by name can only
    be the name of a declared argument: otherwise no call is launched. *)
Theorem call_n_threads_name_declared (self : KernelPyopencl Function Kernel)
    (kwargs : gmap string PyValue) (trace trace' : list NativeOp) r (s : string) :
  NoDup (declared_names (description self)) ->
  n_threads (description self) = NThreadsStr s ->
  __call__ native_launch event_wait atype_call sub_buffer description_pyname self kwargs trace = (r, trace') ->
  trace' <> trace ->
  s ∈ declared_names (description self).
Proof.
  intros Hnd Hs H Hne.
  destruct (call_launched self kwargs trace trace' r H Hne) as (n & arg_list & Hsz & Hm & Hn).
  assert (Hdom : dom kwargs = list_to_set (declared_names (description self))).
  { apply supplied_names_exact; [exact Hnd | exact Hsz |].
    eapply marshal_names_supplied; eauto. }
  unfold resolve_n_threads, getitem in Hn. rewrite Hs in Hn.
  destruct (kwargs !! s) as [v|] eqn:Hk; [|discriminate Hn].
  assert (Hin : s ∈ dom kwargs) by (apply elem_of_dom; eauto).
  rewrite Hdom in Hin. apply elem_of_list_to_set in Hin. exact Hin.
Qed.

(** X4. A call that does not supply a declared argument raises and leaves
    the trace as it was: nothing is launched. *)
Theorem call_missing_argument_not_launched (self : KernelPyopencl Function Kernel)
    (kwargs : gmap string PyValue) (trace : list NativeOp) (arg : Arg) :
  arg ∈ args (description self) ->
  kwargs !! name arg = None ->
  exists e, __call__ native_launch event_wait atype_call sub_buffer description_pyname self kwargs trace
            = (Raise e, trace).
Proof.
  intros Hin Hnone. unfold __call__.
  destruct (py_assert _) as [_|e]; [|eauto].
  destruct (marshal _ _ _) as [arg_list|e] eqn:Hm; [|eauto].
  destruct (marshal_names_supplied _ _ _ _ Hm arg Hin) as [vv Hvv]. congruence.
Qed.

Lemma marshal_key_error (description : Kernel) (description_args : list Arg)
    (kwargs : gmap string PyValue) :
  (forall arg vv, arg ∈ description_args -> kwargs !! name arg = Some vv ->
                  exists a, to_function_arg atype_call sub_buffer description_pyname
                              description arg vv = Ret a) ->
  (exists arg, arg ∈ description_args /\ kwargs !! name arg = None) ->
  marshal atype_call sub_buffer description_pyname description description_args kwargs
  = Raise KeyError.
Proof.
  induction description_args as [|arg rest IH]; intros Hall (arg0 & Hin & Hnone).
  - inversion Hin.
  - simpl. unfold getitem.
    destruct (kwargs !! name arg) as [vv|] eqn:Hk; simpl; [|reflexivity].
    destruct (Hall arg vv) as [a Ha]; [left | exact Hk |].
    rewrite Ha. simpl.
    rewrite IH; [reflexivity | |].
    + intros arg' vv' Hin' Hk'. apply (Hall arg' vv'); [right; exact Hin' | exact Hk'].
    + apply elem_of_cons in Hin as [-> | Hin]; [congruence | eauto].
Qed.

(** X5. As many names as declared, every supplied value of a declared
    argument fit to marshal, and a declared name that is not supplied: the
    call raises [KeyError], and nothing is launched. *)
Theorem call_absent_name_key_error (self : KernelPyopencl Function Kernel)
    (kwargs : gmap string PyValue) (trace : list NativeOp) :
  size kwargs = length (args (description self)) ->
  (forall arg vv, arg ∈ args (description self) -> kwargs !! name arg = Some vv ->
                  exists a, to_function_arg atype_call sub_buffer description_pyname
                              (description self) arg vv = Ret a) ->
  (exists arg, arg ∈ args (description self) /\ kwargs !! name arg = None) ->
  __call__ native_launch event_wait atype_call sub_buffer description_pyname self kwargs trace
  = (Raise KeyError, trace).
Proof.
  intros Hsz Hall Habs. unfold __call__, num_args, py_assert, len.
  rewrite Hsz, Z.eqb_refl.
  rewrite (marshal_key_error _ _ _ Hall Habs). reflexivity.
Qed.

End WithNative.

(** *** Concrete calls *)

Local Open Scope string_scope.
Local Open Scope list_scope.

Lemma scale_names_distinct : NoDup (declared_names (description (scale_kernel true))).
Proof. vm_compute. repeat constructor; set_solver. Qed.

Lemma call_launches_in_declaration_order_witness :
  exists n arg_list,
    Forall2 (fun arg a => exists vv,
                ({[ "n" := VInt 4; "x" := x_array ]} : gmap string PyValue) !! name arg = Some vv
                /\ to_function_arg cast0 sub_buffer0 pyname0
                     (description (scale_kernel true)) arg vv = Ret a)
            (args (description (scale_kernel true))) arg_list
    /\ match n_threads (description (scale_kernel true)) with
       | NThreadsStr s =>
           ({[ "n" := VInt 4; "x" := x_array ]} : gmap string PyValue) !! s = Some n
       | NThreadsInt z => n = VInt z
       end
    /\ launch0 (function (scale_kernel true)) n arg_list = Ret 2%nat
    /\ [Launch "scale" (VInt 4) [VSubBuffer 0 0; VInt 4]; Wait 2%nat]
       = [] ++ Launch (function (scale_kernel true)) n arg_list
            :: (if wait_on_call (scale_kernel true) then [Wait 2%nat] else []).
Proof.
  apply (call_launches_in_declaration_order launch0 wait0 cast0 sub_buffer0 pyname0 (scale_kernel true)
           {[ "n" := VInt 4; "x" := x_array ]} []).
  reflexivity.
Defined.

Lemma call_launches_only_exact_names_witness :
  dom ({[ "x" := x_array; "n" := VInt 4 ]} : gmap string PyValue)
  = list_to_set (declared_names (description (scale_kernel true))).
Proof.
  apply (call_launches_only_exact_names launch0 wait0 cast0 sub_buffer0 pyname0 (scale_kernel true)
           {[ "x" := x_array; "n" := VInt 4 ]} []
           [Launch "scale" (VInt 4) [VSubBuffer 0 0; VInt 4]; Wait 2%nat] (Ret 2%nat)).
  - vm_compute. repeat constructor; set_solver.
  - reflexivity.
  - discriminate.
Defined.

Lemma call_n_threads_name_declared_witness :
  "n" ∈ declared_names (description (scale_kernel true)).
Proof.
  apply (call_n_threads_name_declared launch0 wait0 cast0 sub_buffer0 pyname0 (scale_kernel true)
           {[ "x" := x_array; "n" := VInt 4 ]} []
           [Launch "scale" (VInt 4) [VSubBuffer 0 0; VInt 4]; Wait 2%nat] (Ret 2%nat)).
  - vm_compute. repeat constructor; set_solver.
  - reflexivity.
  - reflexivity.
  - discriminate.
Defined.

Lemma call_missing_argument_not_launched_witness :
  exists e, __call__ launch0 wait0 cast0 sub_buffer0 pyname0 (scale_kernel true)
              {[ "x" := x_array; "m" := VInt 4 ]} []
            = (Raise e, []).
Proof.
  apply (call_missing_argument_not_launched launch0 wait0 cast0 sub_buffer0 pyname0 (scale_kernel true)
           {[ "x" := x_array; "m" := VInt 4 ]} [] (mkArg "n" false Int64)).
  - vm_compute. set_solver.
  - reflexivity.
Defined.

Lemma call_absent_name_key_error_witness :
  __call__ launch0 wait0 cast0 sub_buffer0 pyname0 (scale_kernel true)
    {[ "x" := x_array; "m" := VInt 4 ]} []
  = (Raise KeyError, []).
Proof.
  apply (call_absent_name_key_error launch0 wait0 cast0 sub_buffer0 pyname0 (scale_kernel true)
           {[ "x" := x_array; "m" := VInt 4 ]} []).
  - reflexivity.
  - intros arg vv Hin Hk. vm_compute in Hin.
    apply elem_of_cons in Hin as [-> | Hin].
    + injection Hk as <-. eexists. reflexivity.
    + apply elem_of_cons in Hin as [-> | Hin]; [discriminate Hk | inversion Hin].
  - exists (mkArg "n" false Int64). split; [vm_compute; set_solver | reflexivity].
Defined.

End KernelMore.

(* ===================================================================== *)
(** ** More on add_kernels *)
(* ===================================================================== *)

Module ContextMoreProps.
Import Context ContextMore Concrete Concrete2.

Section WithNative.

Context {Program Function : Type}.
Variable cl_Program_build : string -> outcome Program.
Variable getattr_prg : Program -> string -> outcome Function.
Variable specialize_source : string -> gset string -> outcome string.
Variable dirname : string -> string.
Variable save_file : string -> string -> option (PyExn * option string).

Implicit Types (st : @State Function) (items : list (string * nat)).

(** *** The loop *)

Lemma default_c_name_files pyname kernel st :
  files (default_c_name pyname kernel st).2 = files st.
Proof. unfold default_c_name. destruct (c_name (objects st kernel)); reflexivity. Qed.

(** The loop writes no file. *)
Lemma bind_kernels_files prg items : forall st r st',
  bind_kernels getattr_prg prg items st = (r, st') -> files st' = files st.
Proof.
  induction items as [|[pyname kernel] rest IH]; intros st r st' Hrun.
  - simpl in Hrun. injection Hrun as <- <-. reflexivity.
  - rewrite (ContextProps.bind_kernels_cons getattr_prg) in Hrun.
    destruct (getattr_prg prg _) as [f|e].
    + rewrite (IH _ _ _ Hrun). simpl. apply default_c_name_files.
    + injection Hrun as <- <-. apply default_c_name_files.
Qed.

(** What the defaulting step does to an object: nothing, or it gives the
    object of the entry, so far without a name, the entry's key. *)
Lemma default_c_name_object pyname kernel st ref :
  objects (default_c_name pyname kernel st).2 ref = objects st ref
  \/ (ref = kernel /\ c_name (objects st ref) = None
      /\ objects (default_c_name pyname kernel st).2 ref
         = mkKernel (Some pyname) (args (objects st ref)) (n_threads (objects st ref))).
Proof.
  unfold default_c_name. destruct (c_name (objects st kernel)) eqn:E; simpl; [left; reflexivity|].
  destruct (decide (kernel = ref)) as [->|Hne].
  - right. rewrite fn_lookup_insert. auto.
  - left. rewrite fn_lookup_insert_ne by done. reflexivity.
Qed.

(** The loop changes a description object at most once and only by giving
    it, when it has no name, the key of one of the entries that hold it. *)
Lemma bind_kernels_objects prg items : forall st r st' ref,
  bind_kernels getattr_prg prg items st = (r, st') ->
  objects st' ref = objects st ref
  \/ (c_name (objects st ref) = None
      /\ exists pyname, (pyname, ref) ∈ items
         /\ objects st' ref
            = mkKernel (Some pyname) (args (objects st ref)) (n_threads (objects st ref))).
Proof.
  induction items as [|[pyname kernel] rest IH]; intros st r st' ref Hrun.
  - simpl in Hrun. injection Hrun as <- <-. left. reflexivity.
  - rewrite (ContextProps.bind_kernels_cons getattr_prg) in Hrun.
    pose proof (default_c_name_object pyname kernel st ref) as Hstep.
    destruct (getattr_prg prg _) as [f|e].
    + destruct (IH _ _ _ ref Hrun) as [Heq | (Hnone & p & Hin & Heq)]; simpl in *.
      * destruct Hstep as [Hs | (-> & Hn & Hs)].
        -- left. congruence.
        -- right. split; [exact Hn|]. exists pyname. split; [left|]. congruence.
      * destruct Hstep as [Hs | (-> & Hn & Hs)].
        -- right. rewrite Hs in Hnone, Heq. split; [exact Hnone|].
           exists p. split; [right; exact Hin | exact Heq].
        -- rewrite Hs in Hnone. discriminate Hnone.
    + injection Hrun as <- <-.
      destruct Hstep as [Hs | (-> & Hn & Hs)].
      * left. exact Hs.
      * right. split; [exact Hn|]. exists pyname. split; [left | exact Hs].
Qed.

(** When the loop ends, the names of the mapping are the earlier ones and
    the keys of the entries. *)
Lemma bind_kernels_dom prg items : forall st st',
  bind_kernels getattr_prg prg items st = (Ret tt, st') ->
  dom (_kernels st') = dom (_kernels st) ∪ list_to_set items.*1.
Proof.
  induction items as [|[pyname kernel] rest IH]; intros st st' Hrun.
  - simpl in Hrun. injection Hrun as <-. set_solver.
  - rewrite (ContextProps.bind_kernels_cons getattr_prg) in Hrun.
    destruct (getattr_prg prg _) as [f|e]; [|discriminate Hrun].
    rewrite (IH _ _ Hrun). simpl.
    rewrite dom_insert_L, ContextProps.default_c_name_kernels. set_solver.
Qed.

(** A loop that raises stopped at an entry whose entry point the program
    does not have; the entries before it are bound, every other name is
    bound as before. *)
Lemma bind_kernels_failure prg items : forall st st' e,
  bind_kernels getattr_prg prg items st = (Raise e, st') ->
  NoDup items.*1 ->
  exists pre pyname kernel post c,
    items = pre ++ (pyname, kernel) :: post
    /\ c_name (objects st' kernel) = Some c
    /\ getattr_prg prg c = Raise e
    /\ (forall p k, (p, k) ∈ pre ->
          exists c' f, getattr_prg prg c' = Ret f
                       /\ _kernels st' !! p = Some (mkKernelPyopencl f k true))
    /\ (forall other, other ∉ pre.*1 -> _kernels st' !! other = _kernels st !! other).
Proof.
  induction items as [|[pyname kernel] rest IH]; intros st st' e Hrun Hnd.
  - discriminate Hrun.
  - rewrite (ContextProps.bind_kernels_cons getattr_prg) in Hrun.
    rewrite fmap_cons in Hnd. apply NoDup_cons in Hnd as [Hfresh Hnd]. simpl in Hfresh.
    destruct (getattr_prg prg _) as [f|e0] eqn:Hget.
    + destruct (IH _ _ _ Hrun Hnd) as (pre & p1 & k1 & post & c & -> & Hc & Hf & Hpre & Hoth).
      exists ((pyname, kernel) :: pre), p1, k1, post, c.
      split; [reflexivity|]. split; [exact Hc|]. split; [exact Hf|]. split.
      * intros p k Hin. apply elem_of_cons in Hin as [[= -> ->] | Hin]; [|eauto].
        exists (default_c_name pyname kernel st).1, f. split; [exact Hget|].
        rewrite (ContextProps.bind_kernels_other_names getattr_prg _ _ _ _ _ _ Hrun Hfresh).
        simpl. apply lookup_insert_eq.
      * intros other Hnin. rewrite fmap_cons in Hnin.
        apply not_elem_of_cons in Hnin as [Hne Hnin]. simpl in Hne.
        rewrite (Hoth other Hnin). simpl.
        rewrite lookup_insert_ne by done.
        rewrite ContextProps.default_c_name_kernels. reflexivity.
    + injection Hrun as <- <-.
      exists [], pyname, kernel, rest, (default_c_name pyname kernel st).1.
      split; [reflexivity|]. split; [apply ContextProps.default_c_name_sets|].
      split; [exact Hget|]. split.
      * intros p k Hin. inversion Hin.
      * intros other _. rewrite ContextProps.default_c_name_kernels. reflexivity.
Qed.

(** *** The whole method *)

(** A save that returns has left the state [saved]; one that raises has
    left the mapping and the objects alone. *)
Lemma save_source_returns source save st st0 :
  save_source save_file source save st = (Ret tt, st0) ->
  st0 = saved save source st /\ save_succeeds save_file save source.
Proof.
  unfold save_source, saved, save_succeeds. destruct save as [path|].
  - destruct (save_file path source) as [[e [text|]]|]; intros [= <-]; auto.
  - intros [= <-]. auto.
Qed.

Lemma save_source_succeeds source save st :
  save_succeeds save_file save source ->
  save_source save_file source save st = (Ret tt, saved save source st).
Proof.
  unfold save_source, saved, save_succeeds. destruct save as [path|]; [|reflexivity].
  intros ->. reflexivity.
Qed.

Lemma saved_kernels save source st : _kernels (saved save source st) = _kernels st.
Proof. destruct save; reflexivity. Qed.

Lemma saved_objects save source st : objects (saved save source st) = objects st.
Proof. destruct save; reflexivity. Qed.

(** The ways [add_kernels] ends: at the specialisation, at the save, at
    the build, or in the loop. *)
Lemma add_kernels_cases sources kernels specialize save st r st' :
  add_kernels cl_Program_build getattr_prg specialize_source dirname save_file
    sources kernels specialize save st = (r, st') ->
  (exists e, final_source specialize_source dirname sources specialize = Raise e
             /\ r = Raise e /\ st' = st)
  \/ (exists source,
        final_source specialize_source dirname sources specialize = Ret source
        /\ ((exists e, save_source save_file source save st = (Raise e, st')
                       /\ r = Raise e)
            \/ (save_succeeds save_file save source
                /\ ((exists e, cl_Program_build source = Raise e
                               /\ r = Raise e /\ st' = saved save source st)
                    \/ (exists prg, cl_Program_build source = Ret prg
                                    /\ bind_kernels getattr_prg prg kernels
                                         (saved save source st) = (r, st')))))).
Proof.
  unfold add_kernels. intros H.
  destruct (final_source _ _ _ _) as [source|e].
  - right. exists source. split; [reflexivity|].
    destruct (save_source save_file source save st) as [[[]|e] st0] eqn:Hs.
    + apply save_source_returns in Hs as [-> Hok]. right. split; [exact Hok|].
      destruct (cl_Program_build source) as [prg|e].
      * right. eauto.
      * left. injection H as <- <-. eauto.
    + left. injection H as <- <-. eauto.
  - left. injection H as <- <-. eauto.
Qed.

(** X6. However [add_kernels] ends, the names that are not keys of the given
    kernel set are bound as they were. *)
Theorem add_kernels_other_names sources kernels specialize save st r st' other :
  add_kernels cl_Program_build getattr_prg specialize_source dirname save_file
    sources kernels specialize save st = (r, st') ->
  other ∉ kernels.*1 ->
  _kernels st' !! other = _kernels st !! other.
Proof.
  intros H Hnin.
  apply add_kernels_cases in H
    as [(e & _ & _ & ->)
       | (source & _ & [(e & Hs & _) | (_ & [(e & _ & _ & ->) | (prg & _ & Hrun)])])].
  - reflexivity.
  - destruct (ContextProps.save_source_frame _ _ _ _ _ _ Hs) as [-> _]. reflexivity.
  - rewrite saved_kernels. reflexivity.
  - rewrite (ContextProps.bind_kernels_other_names getattr_prg _ _ _ _ _ _ Hrun Hnin).
    rewrite saved_kernels. reflexivity.
Qed.

(** X7. When the specialisation or the build fails, [add_kernels] raises
    with no kernel bound and no description object changed. *)
Theorem add_kernels_build_failure sources kernels specialize save st r st' :
  add_kernels cl_Program_build getattr_prg specialize_source dirname save_file
    sources kernels specialize save st = (r, st') ->
  (exists e, final_source specialize_source dirname sources specialize = Raise e)
  \/ (exists source e,
        final_source specialize_source dirname sources specialize = Ret source
        /\ cl_Program_build source = Raise e) ->
  (exists e, r = Raise e) /\ _kernels st' = _kernels st /\ objects st' = objects st.
Proof.
  intros H Hfail.
  apply add_kernels_cases in H
    as [(e & _ & -> & ->)
       | (source & Hsrc & [(e & Hs & ->) | (_ & [(e & _ & -> & ->) | (prg & Hb & Hrun)])])].
  - eauto.
  - destruct (ContextProps.save_source_frame _ _ _ _ _ _ Hs) as [-> ->]. eauto.
  - rewrite saved_kernels, saved_objects. eauto.
  - exfalso. destruct Hfail as [(e & He) | (source' & e & Hs & He)]; [congruence|].
    rewrite Hsrc in Hs. injection Hs as <-. congruence.
Qed.

(** X8. Once the source is specialised and a path is given as
    [save_source_as]: when the file system takes the text, the file at the
    path holds it exactly as it goes to the compiler, whether the build and
    the lookups succeed or not, and no other file is written; when the file
    cannot be opened, [add_kernels] raises that error and has changed
    nothing; when the write fails on the opened file, it raises that error
    with the file as the failure left it, and nothing built or bound. *)
Theorem add_kernels_saves_source sources kernels specialize path st r st' source :
  final_source specialize_source dirname sources specialize = Ret source ->
  add_kernels cl_Program_build getattr_prg specialize_source dirname save_file
    sources kernels specialize (Some path) st = (r, st') ->
  (save_file path source = None -> files st' = <[ path := source ]> (files st))
  /\ (forall e, save_file path source = Some (e, None) -> r = Raise e /\ st' = st)
  /\ (forall e text, save_file path source = Some (e, Some text) ->
        r = Raise e /\ files st' = <[ path := text ]> (files st)
        /\ _kernels st' = _kernels st /\ objects st' = objects st).
Proof.
  intros Hsrc H.
  apply add_kernels_cases in H
    as [(e & He & _)
       | (source' & Hsrc' & [(e & Hs & ->) | (Hok & [(e & _ & _ & ->) | (prg & _ & Hrun)])])];
    [congruence| | |]; rewrite Hsrc in Hsrc'; injection Hsrc' as <-.
  - unfold save_source in Hs.
    destruct (save_file path source) as [[e' [text|]]|].
    + injection Hs as <- <-. split; [discriminate|]. split.
      * intros e0 [=].
      * intros e0 text0 [= <- <-]. simpl. auto.
    + injection Hs as <- <-. split; [discriminate|]. split.
      * intros e0 [= <-]. auto.
      * intros e0 text0 [=].
    + discriminate Hs.
  - simpl in Hok. split; [reflexivity|]. rewrite Hok. split; intros; discriminate.
  - simpl in Hok. rewrite (bind_kernels_files _ _ _ _ _ Hrun).
    split; [reflexivity|]. rewrite Hok. split; intros; discriminate.
Qed.

(** X9. However [add_kernels] ends, a description object is as it was, or
    it had no native name and now has the key of an entry that holds it;
    its arguments and its thread count are never touched, and a native name
    that was set stays. *)
Theorem add_kernels_objects sources kernels specialize save st r st' ref :
  add_kernels cl_Program_build getattr_prg specialize_source dirname save_file
    sources kernels specialize save st = (r, st') ->
  objects st' ref = objects st ref
  \/ (c_name (objects st ref) = None
      /\ exists pyname, (pyname, ref) ∈ kernels
         /\ objects st' ref
            = mkKernel (Some pyname) (args (objects st ref)) (n_threads (objects st ref))).
Proof.
  intros H.
  apply add_kernels_cases in H
    as [(e & _ & _ & ->)
       | (source & _ & [(e & Hs & _) | (_ & [(e & _ & _ & ->) | (prg & _ & Hrun)])])].
  - left. reflexivity.
  - left. destruct (ContextProps.save_source_frame _ _ _ _ _ _ Hs) as [_ ->]. reflexivity.
  - left. rewrite saved_objects. reflexivity.
  - destruct (bind_kernels_objects _ _ _ _ _ ref Hrun) as [Heq | Hch].
    + left. rewrite Heq, saved_objects. reflexivity.
    + right. rewrite saved_objects in Hch. exact Hch.
Qed.

(** X10. When [add_kernels] returns, the names bound in the context are the
    ones bound before and the keys of the given kernel set. *)
Theorem add_kernels_dom sources kernels specialize save st st' :
  add_kernels cl_Program_build getattr_prg specialize_source dirname save_file
    sources kernels specialize save st = (Ret tt, st') ->
  dom (_kernels st') = dom (_kernels st) ∪ list_to_set kernels.*1.
Proof.
  intros H.
  apply add_kernels_cases in H
    as [(e & _ & [=] & _)
       | (source & _ & [(e & _ & [=]) | (_ & [(e & _ & [=] & _) | (prg & _ & Hrun)])])].
  rewrite (bind_kernels_dom _ _ _ _ Hrun), saved_kernels. reflexivity.
Qed.

(** X11. When the source was saved (if asked), the build succeeds and
    [add_kernels] still raises, it stopped at an entry whose native name is
    not an entry point of the program; nothing is rolled back: the entries
    before it are bound to the new program, the object of the failing entry
    has its name, and every other name is bound as before. *)
Theorem add_kernels_lookup_failure sources kernels specialize save st st' e source prg :
  final_source specialize_source dirname sources specialize = Ret source ->
  save_succeeds save_file save source ->
  cl_Program_build source = Ret prg ->
  NoDup kernels.*1 ->
  add_kernels cl_Program_build getattr_prg specialize_source dirname save_file
    sources kernels specialize save st = (Raise e, st') ->
  exists pre pyname kernel post c,
    kernels = pre ++ (pyname, kernel) :: post
    /\ c_name (objects st' kernel) = Some c
    /\ getattr_prg prg c = Raise e
    /\ (forall p k, (p, k) ∈ pre ->
          exists c' f, getattr_prg prg c' = Ret f
                       /\ _kernels st' !! p = Some (mkKernelPyopencl f k true))
    /\ (forall other, other ∉ pre.*1 -> _kernels st' !! other = _kernels st !! other).
Proof.
  intros Hsrc Hsave Hb Hnd H.
  apply add_kernels_cases in H
    as [(e' & He & _)
       | (source' & Hsrc' & [(e' & Hs & _) | (_ & [(e' & He & _) | (prg' & Hb' & Hrun)])])];
    [congruence| | |]; rewrite Hsrc in Hsrc'; injection Hsrc' as <-.
  - rewrite (save_source_succeeds _ _ _ Hsave) in Hs. discriminate Hs.
  - congruence.
  - rewrite Hb in Hb'. injection Hb' as <-.
    destruct (bind_kernels_failure _ _ _ _ _ Hrun Hnd)
      as (pre & pyname & kernel & post & c & Hk & Hc & Hf & Hpre & Hoth).
    exists pre, pyname, kernel, post, c. repeat split; auto.
    intros other Hnin. rewrite (Hoth other Hnin), saved_kernels. reflexivity.
Qed.

End WithNative.

(** *** A kernel bound by add_kernels, called *)

Section Called.

Context {Program Function Event : Type}.
Variable cl_Program_build : string -> outcome Program.
Variable getattr_prg : Program -> string -> outcome Function.
Variable specialize_source : string -> gset string -> outcome string.
Variable dirname : string -> string.
Variable save_file : string -> string -> option (PyExn * option string).
Variable native_launch : Function -> PyValue -> list PyValue -> outcome Event.
Variable event_wait : Event -> outcome unit.
Variable atype_call : AType -> PyValue -> outcome PyValue.
Variable sub_buffer : nat -> Z -> outcome unit.
Variable description_pyname : Kernel -> option string.

(** X12. A kernel that [add_kernels] has bound waits on every call:
    [add_kernels] builds it without [wait_on_call], which defaults to
    [True], so a call that returns has launched and then waited for the
    event it returns. *)
Theorem added_kernel_waits sources kernels specialize save
    (st st' : @State Function) pyname kernel binding kwargs
    (trace trace' : list KernelCall.NativeOp) (event : Event) :
  NoDup kernels.*1 ->
  (pyname, kernel) ∈ kernels ->
  add_kernels cl_Program_build getattr_prg specialize_source dirname save_file
    sources kernels specialize save st = (Ret tt, st') ->
  _kernels st' !! pyname = Some binding ->
  KernelCall.__call__ native_launch event_wait atype_call sub_buffer description_pyname
    (held_kernel st' binding) kwargs trace = (Ret event, trace') ->
  exists n arg_list,
    trace' = trace ++ [KernelCall.Launch (function binding) n arg_list;
                       KernelCall.Wait event].
Proof.
  intros Hnd Hin Hadd Hb Hcall.
  apply add_kernels_cases in Hadd
    as [(e & _ & [=] & _)
       | (source & _ & [(e & _ & [=]) | (_ & [(e & _ & [=] & _) | (prg & _ & Hrun)])])].
  destruct (ContextProps.bind_kernels_binds getattr_prg _ _ _ _ _ _ Hrun Hnd Hin)
    as (c & f & _ & _ & Hk).
  rewrite Hb in Hk. injection Hk as ->.
  unfold KernelCall.__call__, held_kernel in Hcall. simpl in Hcall.
  destruct (py_assert _); [|discriminate Hcall].
  destruct (KernelCall.marshal _ _ _ _ _ _) as [arg_list|]; [|discriminate Hcall].
  destruct (KernelCall.resolve_n_threads _ _) as [n|]; [|discriminate Hcall].
  destruct (native_launch _ _ _) as [ev|]; [|discriminate Hcall].
  destruct (event_wait ev); [|discriminate Hcall].
  injection Hcall as <- <-. exists n, arg_list.
  rewrite <- app_assoc. reflexivity.
Qed.

End Called.

(** *** Concrete compilations *)

Local Open Scope string_scope.
Local Open Scope list_scope.

Lemma add_kernels_other_names_witness :
  _kernels (compile0 "v2" [("clear", 1%nat)] st_v1).2 !! "fill"
  = _kernels st_v1 !! "fill".
Proof.
  apply (add_kernels_other_names build0 getattr0 specialize0 dirname0 save0
           [SourceText "v2"] [("clear", 1%nat)] false None st_v1
           (compile0 "v2" [("clear", 1%nat)] st_v1).1).
  - reflexivity.
  - vm_compute. set_solver.
Defined.

Lemma add_kernels_build_failure_witness :
  (exists e, (compile1 "bad" kernels_ab None st_v1).1 = Raise e)
  /\ _kernels (compile1 "bad" kernels_ab None st_v1).2 = _kernels st_v1
  /\ objects (compile1 "bad" kernels_ab None st_v1).2 = objects st_v1.
Proof.
  apply (add_kernels_build_failure build1 getattr1 specialize0 dirname0 save1
           [SourceText "bad"] kernels_ab false None st_v1).
  - reflexivity.
  - right. exists "bad", CompilationError. split; reflexivity.
Defined.

Lemma add_kernels_saves_source_witness :
  (save1 "out.cl" "bad" = None ->
   files (compile1 "bad" kernels_ab (Some "out.cl") st_init).2
   = <[ "out.cl" := "bad" ]> (files st_init))
  /\ (forall e, save1 "out.cl" "bad" = Some (e, None) ->
        (compile1 "bad" kernels_ab (Some "out.cl") st_init).1 = Raise e
        /\ (compile1 "bad" kernels_ab (Some "out.cl") st_init).2 = st_init)
  /\ (forall e text, save1 "out.cl" "bad" = Some (e, Some text) ->
        (compile1 "bad" kernels_ab (Some "out.cl") st_init).1 = Raise e
        /\ files (compile1 "bad" kernels_ab (Some "out.cl") st_init).2
           = <[ "out.cl" := text ]> (files st_init)
        /\ _kernels (compile1 "bad" kernels_ab (Some "out.cl") st_init).2
           = _kernels st_init
        /\ objects (compile1 "bad" kernels_ab (Some "out.cl") st_init).2
           = objects st_init).
Proof.
  apply (add_kernels_saves_source build1 getattr1 specialize0 dirname0 save1
           [SourceText "bad"] kernels_ab false "out.cl" st_init
           (compile1 "bad" kernels_ab (Some "out.cl") st_init).1).
  - reflexivity.
  - reflexivity.
Defined.

(** The text that does not build is saved all the same; with a path that
    cannot be opened nothing is written, built or bound. *)
Example save_then_build :
  (compile1 "bad" kernels_ab (Some "out.cl") st_init).1 = Raise CompilationError
  /\ files (compile1 "bad" kernels_ab (Some "out.cl") st_init).2 !! "out.cl" = Some "bad"
  /\ (compile1 "v1" kernels_ab (Some "") st_init).1 = Raise OSError
  /\ files (compile1 "v1" kernels_ab (Some "") st_init).2 = files st_init
  /\ _kernels (compile1 "v1" kernels_ab (Some "") st_init).2 = _kernels st_init.
Proof. repeat split. Qed.

Lemma add_kernels_objects_witness :
  objects (compile1 "v1" kernels_ab None st_init).2 1%nat = objects st_init 1%nat
  \/ (c_name (objects st_init 1%nat) = None
      /\ exists pyname, (pyname, 1%nat) ∈ kernels_ab
         /\ objects (compile1 "v1" kernels_ab None st_init).2 1%nat
            = mkKernel (Some pyname) (args (objects st_init 1%nat))
                       (n_threads (objects st_init 1%nat))).
Proof.
  apply (add_kernels_objects build1 getattr1 specialize0 dirname0 save1
           [SourceText "v1"] kernels_ab false None st_init
           (compile1 "v1" kernels_ab None st_init).1).
  reflexivity.
Defined.

Lemma add_kernels_dom_witness :
  dom (_kernels (compile0 "v2" [("clear", 1%nat)] st_v1).2)
  = dom (_kernels st_v1) ∪ list_to_set [("clear", 1%nat)].*1.
Proof.
  apply (add_kernels_dom build0 getattr0 specialize0 dirname0 save0
           [SourceText "v2"] [("clear", 1%nat)] false None st_v1).
  reflexivity.
Defined.

Lemma add_kernels_lookup_failure_witness :
  exists pre pyname kernel post c,
    kernels_ab = pre ++ (pyname, kernel) :: post
    /\ c_name (objects (compile1 "v1" kernels_ab None st_init).2 kernel) = Some c
    /\ getattr1 "v1" c = Raise AttributeError
    /\ (forall p k, (p, k) ∈ pre ->
          exists c' f, getattr1 "v1" c' = Ret f
                       /\ _kernels (compile1 "v1" kernels_ab None st_init).2 !! p
                          = Some (mkKernelPyopencl f k true))
    /\ (forall other, other ∉ pre.*1 ->
          _kernels (compile1 "v1" kernels_ab None st_init).2 !! other
          = _kernels st_init !! other).
Proof.
  apply (add_kernels_lookup_failure build1 getattr1 specialize0 dirname0 save1
           [SourceText "v1"] kernels_ab false None st_init
           (compile1 "v1" kernels_ab None st_init).2 AttributeError "v1" "v1").
  - reflexivity.
  - exact I.
  - reflexivity.
  - vm_compute. repeat constructor; set_solver.
  - reflexivity.
Defined.

(** The first entry is bound although the call raised. *)
Example lookup_failure_keeps_first :
  (compile1 "v1" kernels_ab None st_init).1 = Raise AttributeError
  /\ _kernels (compile1 "v1" kernels_ab None st_init).2 !! "fill"
     = Some (mkKernelPyopencl ("v1", "fill") 0%nat true)
  /\ _kernels (compile1 "v1" kernels_ab None st_init).2 !! "missing" = None
  /\ c_name (objects (compile1 "v1" kernels_ab None st_init).2 1%nat) = Some "missing".
Proof. repeat split. Qed.

Lemma added_kernel_waits_witness :
  exists n arg_list,
    [KernelCall.Launch ("v1", "fill") (VInt 1) []; KernelCall.Wait 0%nat]
    = [] ++ [KernelCall.Launch (function (mkKernelPyopencl ("v1", "fill") 0%nat true))
               n arg_list;
             KernelCall.Wait 0%nat].
Proof.
  apply (added_kernel_waits build0 getattr0 specialize0 dirname0 save0 launch1 wait0 cast0 sub_buffer0 pyname0
           [SourceText "v1"] [("fill", 0%nat)] false None st_init st_v1
           "fill" 0%nat (mkKernelPyopencl ("v1", "fill") 0%nat true) ∅ []).
  - vm_compute. repeat constructor; set_solver.
  - vm_compute. set_solver.
  - reflexivity.
  - reflexivity.
  - reflexivity.
Defined.

End ContextMoreProps.

(* ===================================================================== *)
(** ** More on FFTPyopencl *)
(* ===================================================================== *)

Module FFTMoreProps.
Import FFT FFTProps.

(** *** The numerical test below [2^26] *)

Lemma ln_1_plus_lower (x : R) : (0 <= x -> x / (1 + x) <= ln (1 + x))%R.
Proof.
  intros Hx.
  pose proof (ln_le_minus_1 (/ (1 + x))) as H.
  rewrite ln_Rinv in H by lra.
  assert (Hi : (0 < / (1 + x))%R) by (apply Rinv_0_lt_compat; lra).
  specialize (H Hi).
  replace (x / (1 + x))%R with (1 - / (1 + x))%R by (field; lra).
  lra.
Qed.

(** A positive extent lies between two consecutive powers of two. *)
Lemma extent_split (nn : Z) :
  0 < nn ->
  exists (k : nat) (d : Z), nn = 2 ^ Z.of_nat k + d /\ 0 <= d < 2 ^ Z.of_nat k.
Proof.
  intros Hpos.
  destruct (Z.log2_spec nn Hpos) as [Hlo Hhi].
  pose proof (Z.log2_nonneg nn) as Hk.
  exists (Z.to_nat (Z.log2 nn)), (nn - 2 ^ Z.log2 nn).
  rewrite Z2Nat.id by exact Hk.
  rewrite Z.pow_succ_r in Hhi by exact Hk. lia.
Qed.

Lemma power_of_two_between (k : nat) (d : Z) :
  0 <= d < 2 ^ Z.of_nat k -> power_of_two (2 ^ Z.of_nat k + d) -> d = 0.
Proof.
  intros [Hd0 Hd1] [j Hj].
  destruct (Z.lt_trichotomy (Z.of_nat j) (Z.of_nat k)) as [Hlt | [Heq | Hgt]].
  - assert (2 ^ Z.of_nat j < 2 ^ Z.of_nat k) by (apply Z.pow_lt_mono_r; lia). lia.
  - rewrite Heq in Hj. lia.
  - assert (2 ^ Z.succ (Z.of_nat k) <= 2 ^ Z.of_nat j) by (apply Z.pow_le_mono_r; lia).
    rewrite Z.pow_succ_r in H by lia. lia.
Qed.

(** An extent [2^k + d] with [1 <= d < 2^k] and [k <= 25] is off by more
    than the tolerance. *)
Lemma log2_is_whole_small_gap (k : nat) (d : Z) :
  (k <= 25)%nat -> 1 <= d < 2 ^ Z.of_nat k ->
  log2_is_whole (2 ^ Z.of_nat k + d) = false.
Proof.
  intros Hk [Hd1 Hd2]. apply not_true_is_false.
  rewrite log2_is_whole_split by lia. intros Hc.
  pose proof ln_2_lower as Hlo. pose proof ln_2_upper as Hup.
  assert (Hp : (0 < 2 ^ k)%R) by (apply pow_lt; lra).
  assert (Hp25 : (2 ^ k <= 2 ^ 25)%R) by (apply Rle_pow; [lra | exact Hk]).
  assert (HdR1 : (1 <= IZR d)%R) by (apply IZR_le; exact Hd1).
  assert (HdR2 : (IZR d < 2 ^ k)%R).
  { replace (2 ^ k)%R with (IZR (2 ^ Z.of_nat k)) by (rewrite <- pow_IZR; reflexivity).
    apply IZR_lt; exact Hd2. }
  set (x := (IZR d / 2 ^ k)%R) in *.
  assert (Hx0 : (/ 2 ^ 25 <= x)%R).
  { unfold x, Rdiv.
    apply Rle_trans with (1 * / 2 ^ k)%R.
    - rewrite Rmult_1_l. apply Rinv_le_contravar; assumption.
    - apply Rmult_le_compat_r; [left; apply Rinv_0_lt_compat; exact Hp | exact HdR1]. }
  assert (Hx1 : (x < 1)%R).
  { unfold x. apply (Rmult_lt_reg_r (2 ^ k)); [exact Hp|].
    unfold Rdiv. rewrite Rmult_assoc, Rinv_l, Rmult_1_r, Rmult_1_l by lra. exact HdR2. }
  assert (Hv : (/ 2 ^ 25 = 1 / 33554432)%R) by (simpl; field).
  rewrite Hv in Hx0.
  pose proof (ln_1_plus_lower x ltac:(lra)) as Hln.
  assert (Hhalf : (x / 2 <= x / (1 + x))%R).
  { unfold Rdiv. apply Rmult_le_compat_l; [lra|].
    apply Rinv_le_contravar; lra. }
  assert (Hm : (ln (1 + x) <= 1 / 100000000 * ln 2)%R).
  { apply (Rmult_le_compat_r (ln 2)) in Hc; [|lra].
    unfold Rdiv in Hc at 1. rewrite Rmult_assoc, Rinv_l, Rmult_1_r in Hc by lra.
    exact Hc. }
  nra.
Qed.

(** X13. Below [2^26] the test of the loop is exact: a positive extent
    smaller than [2^26] passes it exactly when it is a power of two.  (The
    logarithms are taken over the reals; at these sizes the test is off
    the tolerance by more than [4e-9].) *)
Theorem log2_is_whole_exact_below_2_26 (nn : Z) :
  0 < nn -> nn < 2 ^ 26 ->
  (log2_is_whole nn = true <-> power_of_two nn).
Proof.
  intros Hpos Hlt.
  destruct (extent_split nn Hpos) as (k & d & -> & Hd).
  assert (Hk : (k <= 25)%nat).
  { destruct (Nat.le_gt_cases k 25) as [H|H]; [exact H|].
    assert (2 ^ 26 <= 2 ^ Z.of_nat k) by (apply Z.pow_le_mono_r; lia). lia. }
  destruct (Z.eq_dec d 0) as [-> | Hne].
  - rewrite Z.add_0_r. split; intros _.
    + exists k. reflexivity.
    + apply log2_is_whole_power.
  - rewrite log2_is_whole_small_gap by lia. split; [discriminate|].
    intros Hp. apply power_of_two_between in Hp; [contradiction | exact Hd].
Qed.

Lemma log2_is_whole_exact_below_2_26_witness :
  log2_is_whole 1024 = true <-> power_of_two 1024.
Proof.
  apply (log2_is_whole_exact_below_2_26 1024); reflexivity.
Defined.

(** *** The constructor *)

(** [shape[ii]] answers for the indices from [-len(shape)] to
    [len(shape) - 1] and raises [IndexError] for the others. *)
Lemma getitem_range (shape : list Z) (ii : Z) :
  (- len shape <= ii < len shape -> exists nn, getitem shape ii = Ret nn)
  /\ (~ (- len shape <= ii < len shape) -> getitem shape ii = Raise IndexError).
Proof.
  unfold getitem, len. split; intros H.
  - destruct (ii <? 0) eqn:E.
    + apply Z.ltb_lt in E.
      destruct (_ && _) eqn:E2; [|apply andb_false_iff in E2 as [E2|E2];
        [apply Z.leb_gt in E2 | apply Z.ltb_ge in E2]; lia].
      destruct (shape !! Z.to_nat (ii + Z.of_nat (length shape))) eqn:El; [eauto|].
      apply lookup_ge_None in El. lia.
    + apply Z.ltb_ge in E.
      destruct (_ && _) eqn:E2; [|apply andb_false_iff in E2 as [E2|E2];
        [apply Z.leb_gt in E2 | apply Z.ltb_ge in E2]; lia].
      destruct (shape !! Z.to_nat ii) eqn:El; [eauto|].
      apply lookup_ge_None in El. lia.
  - destruct (ii <? 0) eqn:E.
    + apply Z.ltb_lt in E.
      destruct (_ && _) eqn:E2; [|reflexivity].
      apply andb_true_iff in E2 as [E2 E3]. apply Z.leb_le in E2. apply Z.ltb_lt in E3. lia.
    + apply Z.ltb_ge in E.
      destruct (_ && _) eqn:E2; [|reflexivity].
      apply andb_true_iff in E2 as [E2 E3]. apply Z.leb_le in E2. apply Z.ltb_lt in E3. lia.
Qed.

Section WithNative.

Context {Plan : Type}.
Variable gpyfft_FFT : list Z -> list Z -> outcome Plan.

(** X14. The constructor asks for the native plan exactly when [axes] is
    not empty, the rank exceeds the largest axis, and every axis but the
    last indexes the shape at an extent that passes the numerical test;
    otherwise it raises with nothing asked of the native library. *)
Theorem init_builds_plan_iff (shape axes : list Z) (wait : bool) (trace : list NativeOp) :
  ((exists m, py_max axes = Ret m /\ m < len shape)
   /\ Forall (fun ii => exists nn, getitem shape ii = Ret nn /\ log2_is_whole nn = true)
             (but_last axes)
   -> (__init__ gpyfft_FFT shape axes wait trace).2 = trace ++ [BuildPlan shape axes])
  /\ (~ ((exists m, py_max axes = Ret m /\ m < len shape)
         /\ Forall (fun ii => exists nn, getitem shape ii = Ret nn
                              /\ log2_is_whole nn = true)
                   (but_last axes))
      -> exists e, __init__ gpyfft_FFT shape axes wait trace = (Raise e, trace)).
Proof.
  split; intros H.
  - apply validate_ok in H. rewrite (init_validated gpyfft_FFT _ _ _ _ H). reflexivity.
  - rewrite <- validate_ok in H.
    destruct (validate shape axes) as [[]|e] eqn:Hv; [contradiction|].
    exists e. apply init_validation_first. exact Hv.
Qed.

(** X15. A transform along one axis has no extent checked: whatever the
    shape, the constructor asks for the native plan as soon as the axis is
    smaller than the rank. *)
Theorem init_single_axis (shape : list Z) (a : Z) (wait : bool) (trace : list NativeOp) :
  a < len shape ->
  __init__ gpyfft_FFT shape [a] wait trace
  = (plan <- gpyfft_FFT shape [a] ;; Ret (mkFFT [a] wait plan),
     trace ++ [BuildPlan shape [a]]).
Proof.
  intros Ha. apply init_validated. apply validate_ok. split.
  - exists a. split; [reflexivity | exact Ha].
  - constructor.
Qed.

(** X16. The rank assertion does not bound the axes from below: with two
    axes or more, a first axis smaller than [-len(shape)] passes it and the
    constructor raises [IndexError] in the loop, with no native plan asked
    for. *)
Theorem init_negative_axis_index_error (shape : list Z) (ii : Z) (rest : list Z)
    (m : Z) (wait : bool) (trace : list NativeOp) :
  rest <> [] ->
  py_max (ii :: rest) = Ret m -> m < len shape ->
  ii < - len shape ->
  __init__ gpyfft_FFT shape (ii :: rest) wait trace = (Raise IndexError, trace).
Proof.
  intros Hrest Hm Hlt Hneg. apply init_validation_first.
  unfold validate. rewrite Hm. simpl bind.
  destruct (m <? len shape) eqn:E; [|apply Z.ltb_ge in E; lia]. simpl bind.
  destruct rest as [|b rest]; [contradiction|].
  change (but_last (ii :: b :: rest)) with (ii :: take (length rest) (b :: rest)).
  cbn [check_extents].
  destruct (getitem_range shape ii) as [_ Hout].
  rewrite Hout by lia. reflexivity.
Qed.

(** X17. When the rank exceeds the largest axis and every axis but the last
    indexes the shape at a power of two, the constructor asks for the native
    plan.  (With the logarithms taken over the reals.) *)
Theorem init_accepts_powers_of_two (shape axes : list Z) (wait : bool)
    (trace : list NativeOp) (m : Z) :
  py_max axes = Ret m -> m < len shape ->
  Forall (fun ii => exists k : nat, getitem shape ii = Ret (2 ^ Z.of_nat k)) (but_last axes) ->
  __init__ gpyfft_FFT shape axes wait trace
  = (plan <- gpyfft_FFT shape axes ;; Ret (mkFFT axes wait plan),
     trace ++ [BuildPlan shape axes]).
Proof.
  intros Hm Hlt Hall. apply init_validated. apply validate_ok. split; [eauto|].
  eapply Forall_impl; [exact Hall|].
  intros ii (k & Hk). exists (2 ^ Z.of_nat k). split; [exact Hk|].
  apply log2_is_whole_power.
Qed.

End WithNative.

(** *** Concrete constructions *)

Lemma init_single_axis_witness :
  __init__ (fun shape axes => Ret (shape, axes)) [6; 4] [0] true []
  = (plan <- Ret ([6; 4], [0]) ;; Ret (mkFFT [0] true plan),
     [] ++ [BuildPlan [6; 4] [0]]).
Proof.
  apply (init_single_axis (fun shape axes => Ret (shape, axes)) [6; 4] 0 true []).
  reflexivity.
Defined.

Lemma init_negative_axis_index_error_witness :
  __init__ (fun shape axes => Ret (shape, axes)) [8; 4] [-3; 0] true []
  = (Raise IndexError, []).
Proof.
  apply (init_negative_axis_index_error (fun shape axes => Ret (shape, axes))
           [8; 4] (-3) [0] 0 true []).
  - discriminate.
  - reflexivity.
  - reflexivity.
  - reflexivity.
Defined.

Lemma init_accepts_powers_of_two_witness :
  __init__ (fun shape axes => Ret (shape, axes)) [16; 8; 5] [0; 1; 2] true []
  = (plan <- Ret ([16; 8; 5], [0; 1; 2]) ;; Ret (mkFFT [0; 1; 2] true plan),
     [] ++ [BuildPlan [16; 8; 5] [0; 1; 2]]).
Proof.
  apply (init_accepts_powers_of_two (fun shape axes => Ret (shape, axes))
           [16; 8; 5] [0; 1; 2] true [] 2).
  - reflexivity.
  - reflexivity.
  - repeat constructor.
    + exists 4%nat. reflexivity.
    + exists 3%nat. reflexivity.
Defined.

End FFTMoreProps.

(* ===================================================================== *)
(** ** FFTPyopencl.transform and itransform *)
(* ===================================================================== *)

Module FFTRunProps.
Import FFT FFTRun.

Section WithNative.

Context {Plan Event Data : Type}.
Variable enqueue_arrays : Plan -> Data -> option bool -> outcome (list Event).
Variable event_wait : Event -> outcome unit.

(** X18. A transform that returns, forward or inverse, has enqueued the
    plan once on the data (the inverse with [forward=False], the forward
    one without the keyword), the plan answered with exactly one event, and
    that event is returned, after a wait on it when [wait_on_call] is set
    and without any wait otherwise. *)
Theorem transforms_return_event (self : @FFTPyopencl Plan) (data : Data)
    (trace trace' : list NativeOp) (event : Event) :
  (transform enqueue_arrays event_wait self data trace = (Ret event, trace') ->
   enqueue_arrays (_fftobj self) data None = Ret [event]
   /\ trace' = trace ++ Enqueue (_fftobj self) data None
                 :: (if wait_on_call self then [Wait event] else []))
  /\ (itransform enqueue_arrays event_wait self data trace = (Ret event, trace') ->
      enqueue_arrays (_fftobj self) data (Some false) = Ret [event]
      /\ trace' = trace ++ Enqueue (_fftobj self) data (Some false)
                    :: (if wait_on_call self then [Wait event] else [])).
Proof.
  split; intros H; [unfold transform in H | unfold itransform in H].
  all: destruct (enqueue_arrays _ _ _) as [events|]; simpl in H; [|discriminate H].
  all: destruct events as [|ev [|ev2 events]]; simpl in H; try discriminate H.
  all: destruct (wait_on_call self).
  all: try (destruct (event_wait ev); [|discriminate H]).
  all: injection H as <- <-; split; [reflexivity|].
  all: rewrite <- ?app_assoc; reflexivity.
Qed.

(** X19. When the plan answers with no event or with several, the transform
    raises [ValueError] after the work was enqueued and waits on nothing. *)
Theorem transform_unpack_error (self : @FFTPyopencl Plan) (data : Data)
    (trace : list NativeOp) (events : list Event) :
  enqueue_arrays (_fftobj self) data None = Ret events ->
  length events <> 1%nat ->
  transform enqueue_arrays event_wait self data trace
  = (Raise ValueError, trace ++ [Enqueue (_fftobj self) data None]).
Proof.
  intros He Hlen. unfold transform. rewrite He. simpl.
  destruct events as [|ev [|ev2 events]]; simpl in *; try reflexivity.
  contradiction.
Qed.

End WithNative.

Lemma transform_unpack_error_witness :
  transform (fun (plan : nat) (data : nat) (forward : option bool) => Ret [7%nat; 8%nat])
            (fun _ => Ret tt) (mkFFT [0] true 1%nat) 5%nat []
  = (Raise ValueError, [] ++ [Enqueue 1%nat 5%nat None]).
Proof.
  apply (transform_unpack_error
           (fun (plan : nat) (data : nat) (forward : option bool) => Ret [7%nat; 8%nat])
           (fun _ => Ret tt) (mkFFT [0] true 1%nat) 5%nat [] [7%nat; 8%nat]).
  - reflexivity.
  - discriminate.
Defined.

End FFTRunProps.

(* ===================================================================== *)
(** ** ContextPyopencl.__init__ *)
(* ===================================================================== *)

Module ContextInitProps.
Import ContextInit Concrete2.

(** Python indexing of a list. *)
Lemma list_getitem_range {A : Type} (l : list A) (i : Z) :
  (- len l <= i < len l -> exists x, list_getitem l i = Ret x)
  /\ (~ (- len l <= i < len l) -> list_getitem l i = Raise IndexError).
Proof.
  unfold list_getitem, len. split; intros H.
  - destruct (i <? 0) eqn:E.
    + apply Z.ltb_lt in E.
      destruct (_ && _) eqn:E2; [|apply andb_false_iff in E2 as [E2|E2];
        [apply Z.leb_gt in E2 | apply Z.ltb_ge in E2]; lia].
      destruct (l !! Z.to_nat (i + Z.of_nat (length l))) eqn:El; [eauto|].
      apply lookup_ge_None in El. lia.
    + apply Z.ltb_ge in E.
      destruct (_ && _) eqn:E2; [|apply andb_false_iff in E2 as [E2|E2];
        [apply Z.leb_gt in E2 | apply Z.ltb_ge in E2]; lia].
      destruct (l !! Z.to_nat i) eqn:El; [eauto|].
      apply lookup_ge_None in El. lia.
  - destruct (i <? 0) eqn:E.
    + apply Z.ltb_lt in E.
      destruct (_ && _) eqn:E2; [|reflexivity].
      apply andb_true_iff in E2 as [E2 E3]. apply Z.leb_le in E2. apply Z.ltb_lt in E3. lia.
    + apply Z.ltb_ge in E.
      destruct (_ && _) eqn:E2; [|reflexivity].
      apply andb_true_iff in E2 as [E2 E3]. apply Z.leb_le in E2. apply Z.ltb_lt in E3. lia.
Qed.

Section WithNative.

Context {Platform Device NativeContext Queue : Type}.
Variable super_init : outcome unit.
Variable create_some_context : outcome NativeContext.
Variable context_devices : NativeContext -> list Device.
Variable device_platform : Device -> Platform.
Variable get_platforms : outcome (list Platform).
Variable get_devices : Platform -> outcome (list Device).
Variable cl_Context : list Device -> outcome NativeContext.
Variable cl_CommandQueue : NativeContext -> outcome Queue.
Variable _patch_pyopencl_array : NativeContext -> outcome unit.
Variable map_int_split : string -> outcome (list Z).

(** X20. Given a device object, the constructor never returns a context:
    it raises, and when [super().__init__()] and [cl.get_platforms()] have
    answered, what it raises is the [UnboundLocalError] of [platform], read
    in [cl.get_platforms()[platform]] without having been assigned. *)
Theorem init_device_object_raises (d : Device) (patch : bool) :
  exists e,
    __init__ super_init create_some_context context_devices device_platform
      get_platforms get_devices cl_Context cl_CommandQueue _patch_pyopencl_array
      map_int_split (DeviceObject d) patch = IRaise e
    /\ (super_init = Ret tt -> (exists platforms, get_platforms = Ret platforms) ->
        e = UnboundLocalError).
Proof.
  unfold __init__, lift.
  destruct super_init as [[]|e0].
  - destruct get_platforms as [platforms|e1].
    + exists UnboundLocalError. split; [reflexivity | auto].
    + exists (PyError e1). split; [reflexivity|].
      intros _ (platforms & [=]).
  - exists (PyError e0). split; [reflexivity|]. intros [=].
Qed.

(** X21. Given a string, a constructor that returns has read two integers
    [p] and [d] from it and returns the context made for the device
    [cl.get_platforms()[p].get_devices()[d]], with the queue made for that
    context. *)
Theorem init_device_string (s : string) (patch : bool) (self : ContextPyopencl) :
  __init__ super_init create_some_context context_devices device_platform
    get_platforms get_devices cl_Context cl_CommandQueue _patch_pyopencl_array
    map_int_split (DeviceStr s) patch = IRet self ->
  exists p d platforms devices,
    map_int_split s = Ret [p; d]
    /\ get_platforms = Ret platforms
    /\ list_getitem platforms p = Ret (platform self)
    /\ get_devices (platform self) = Ret devices
    /\ list_getitem devices d = Ret (device self)
    /\ cl_Context [device self] = Ret (context self)
    /\ cl_CommandQueue (context self) = Ret (queue self).
Proof.
  unfold __init__, finish, lift. intros H.
  destruct super_init; [|discriminate H].
  destruct (map_int_split s) as [parts|]; [|discriminate H].
  destruct parts as [|p [|d [|x parts]]]; try discriminate H.
  destruct get_platforms as [platforms|]; [|discriminate H].
  destruct (list_getitem platforms p) as [plat|] eqn:Hp; [|discriminate H].
  destruct (get_devices plat) as [devices|] eqn:Hd; [|discriminate H].
  destruct (list_getitem devices d) as [dev|] eqn:Hdev; [|discriminate H].
  destruct (cl_Context [dev]) as [ctx|] eqn:Hc; [|discriminate H].
  destruct (cl_CommandQueue ctx) as [q|] eqn:Hq; [|discriminate H].
  destruct (if patch then _patch_pyopencl_array ctx else Ret tt); [|discriminate H].
  injection H as <-. simpl.
  exists p, d, platforms, devices. repeat split; assumption.
Qed.

(** X22. Given a string that names a platform that is not there (an index
    outside [-n .. n-1] for [n] platforms), the constructor raises
    [IndexError], whatever the native layer would answer for devices,
    contexts and queues. *)
Theorem init_platform_out_of_range (s : string) (patch : bool) (p d : Z)
    (platforms : list Platform) :
  super_init = Ret tt ->
  map_int_split s = Ret [p; d] ->
  get_platforms = Ret platforms ->
  ~ (- len platforms <= p < len platforms) ->
  __init__ super_init create_some_context context_devices device_platform
    get_platforms get_devices cl_Context cl_CommandQueue _patch_pyopencl_array
    map_int_split (DeviceStr s) patch = IRaise (PyError IndexError).
Proof.
  intros Hs Hm Hg Hout. unfold __init__, lift. rewrite Hs, Hm, Hg.
  destruct (list_getitem_range platforms p) as [_ H]. rewrite (H Hout). reflexivity.
Qed.

End WithNative.

Local Open Scope string_scope.

Lemma init_device_string_witness :
  exists p d platforms devices,
    map_int_split0 "1.0" = Ret [p; d]
    /\ get_platforms0 = Ret platforms
    /\ list_getitem platforms p = Ret 1%nat
    /\ get_devices0 1%nat = Ret devices
    /\ list_getitem devices d = Ret (1%nat, 0%nat)
    /\ cl_Context0 [(1%nat, 0%nat)] = Ret [(1%nat, 0%nat)]
    /\ cl_CommandQueue0 [(1%nat, 0%nat)] = Ret 1%nat.
Proof.
  apply (init_device_string (Ret tt) (Ret [(0%nat, 0%nat)]) (fun ctx => ctx) fst
           get_platforms0 get_devices0 cl_Context0 cl_CommandQueue0 (fun _ => Ret tt)
           map_int_split0 "1.0" true
           (mkContext [(1%nat, 0%nat)] (1%nat, 0%nat) 1%nat 1%nat)).
  reflexivity.
Defined.

Lemma init_platform_out_of_range_witness :
  init0 (DeviceStr "5.0") true = IRaise (PyError IndexError).
Proof.
  apply (init_platform_out_of_range (Ret tt) (Ret [(0%nat, 0%nat)]) (fun ctx => ctx) fst
           get_platforms0 get_devices0 cl_Context0 cl_CommandQueue0 (fun _ => Ret tt)
           map_int_split0 "5.0" true 5 0 [0%nat; 1%nat]).
  - reflexivity.
  - reflexivity.
  - reflexivity.
  - vm_compute. intros [_ H]. discriminate H.
Defined.

(** The three kinds of argument on this layer. *)
Example init_examples :
  init0 DeviceNone false = IRet (mkContext [(0%nat, 0%nat)] (0%nat, 0%nat) 0%nat 1%nat)
  /\ init0 (DeviceStr "1.0") false
     = IRet (mkContext [(1%nat, 0%nat)] (1%nat, 0%nat) 1%nat 1%nat)
  /\ init0 (DeviceObject (1%nat, 0%nat)) false = IRaise UnboundLocalError.
Proof. repeat split. Qed.

End ContextInitProps.

(* ===================================================================== *)
(** ** More on BufferPyopencl *)
(* ===================================================================== *)

Module BufferMoreProps.
Import Buffer BufferMore BufferProps Concrete.

(** X23. A negative size is refused by [bytearray] with [ValueError],
    whatever the offset, before the device is asked anything: [read] and
    [to_bytearray] raise it even where the offset alone is out of range. *)
Theorem read_negative_size (b : BufferPyopencl) (offset size : Z) :
  size < 0 ->
  read b offset size = Raise ValueError
  /\ to_bytearray b offset size = Raise ValueError.
Proof.
  intros H. unfold read, to_bytearray, bytearray.
  destruct (size <? 0) eqn:E; [split; reflexivity | apply Z.ltb_ge in E; lia].
Qed.

Lemma read_negative_size_witness :
  read buffer0 99 (-1) = Raise ValueError
  /\ to_bytearray buffer0 99 (-1) = Raise ValueError.
Proof. apply (read_negative_size buffer0 99 (-1)). reflexivity. Defined.

(** The bytes a read returns, one by one. *)
Lemma lookup_read_slice (l : list byte) (r n i : nat) :
  take n (drop r l) !! i = if decide (i < n)%nat then l !! (r + i)%nat else None.
Proof.
  destruct (decide (i < n)%nat) as [Hlt|Hge].
  - rewrite lookup_take_lt by exact Hlt. apply lookup_drop.
  - apply lookup_take_ge. lia.
Qed.

(** The bytes of the device memory after a write, away from the written
    range. *)
Lemma lookup_splice_outside (dest src : list byte) (off j : nat) :
  (off + length src <= length dest)%nat ->
  (j < off \/ off + length src <= j)%nat ->
  (take off dest ++ src ++ drop (off + length src) dest) !! j = dest !! j.
Proof.
  intros Hin [Hlt | Hge].
  - rewrite lookup_app_l by (rewrite length_take; lia).
    apply lookup_take_lt. exact Hlt.
  - rewrite lookup_app_r by (rewrite length_take; lia).
    rewrite length_take, Nat.min_l by lia.
    rewrite lookup_app_r by lia.
    rewrite lookup_drop. f_equal. lia.
Qed.

(** X24. A write leaves the rest of the buffer alone: after a write that
    returned, a read of a range that does not meet the written one gives
    what it gave before. *)
Theorem write_frame (b b' : BufferPyopencl) (offset : Z) (payload : list byte)
    (roffset size : Z) :
  write b offset payload = Ret b' ->
  roffset + size <= offset \/ offset + len payload <= roffset ->
  read b' roffset size = read b roffset size.
Proof.
  unfold write, enqueue_copy_to_device. intros Hw Hdis.
  destruct (in_range offset (len payload) (len (buffer b))) eqn:Hin; simpl in Hw;
    [|discriminate Hw].
  injection Hw as <-. apply in_range_true in Hin as [Ho0 Ho1].
  unfold read, bytearray. destruct (size <? 0) eqn:Es; simpl; [reflexivity|].
  apply Z.ltb_ge in Es.
  unfold enqueue_copy_to_host. simpl buffer.
  rewrite length_splice by lia.
  destruct (in_range roffset _ (len (buffer b))) eqn:Hr; simpl; [|reflexivity].
  apply in_range_true in Hr as [Hr0 Hr1].
  assert (Hrep : len (replicate (Z.to_nat size) x00) = size)
    by (unfold len; rewrite length_replicate; lia).
  rewrite Hrep in Hr1.
  f_equal. apply list_eq. intros i.
  rewrite !lookup_read_slice.
  destruct (decide (i < length (replicate (Z.to_nat size) x00))%nat) as [Hi|]; [|reflexivity].
  rewrite length_replicate in Hi.
  unfold len in *.
  rewrite Z2Nat.inj_add, Nat2Z.id by lia.
  apply lookup_splice_outside; lia.
Qed.

Lemma write_frame_witness :
  read (mkBuffer 4 [x00; xab; xcd; x03]) 3 1 = read buffer0 3 1.
Proof.
  apply (write_frame buffer0 (mkBuffer 4 [x00; xab; xcd; x03]) 1 [xab; xcd] 3 1).
  - reflexivity.
  - right. vm_compute. discriminate.
Defined.

(** X25. A buffer as the constructor makes it has a native handle of the
    size of its capacity, and every write that returns keeps both: writes
    never resize a buffer. *)
Theorem writes_keep_capacity (available : Z -> bool) (garbage : nat -> byte) (cap : Z)
    (b b' : BufferPyopencl) (offset : Z) (payload : list byte) :
  XBuffer_init available garbage cap = Ret b ->
  write b offset payload = Ret b' ->
  capacity b' = cap /\ len (buffer b') = cap.
Proof.
  intros Hi Hw.
  destruct (XBuffer_init_wf _ _ _ _ Hi) as (Hwf & Hc & _).
  destruct (write_wf _ _ _ _ Hwf Hw) as (Hwf' & Hc').
  unfold buffer_wf in Hwf'. split; congruence.
Qed.

Lemma writes_keep_capacity_witness :
  capacity (mkBuffer 4 [x00; xab; xcd; x00]) = 4
  /\ len (buffer (mkBuffer 4 [x00; xab; xcd; x00])) = 4.
Proof.
  apply (writes_keep_capacity available0 (fun _ => x00) 4 (mkBuffer 4 [x00; x00; x00; x00])
           (mkBuffer 4 [x00; xab; xcd; x00]) 1 [xab; xcd]).
  - reflexivity.
  - reflexivity.
Defined.

(** X26. When the device grants the new buffer (a size of one byte or
    more that it can satisfy), [copy_native] gives it the bytes that [read]
    gives for the same offset and size, and fails where [read] fails; when
    it does not (a size of no byte is never granted), [copy_native] fails
    with [AllocationError] and copies nothing. *)
Theorem copy_native_is_read (available : Z -> bool) (garbage : nat -> byte)
    (b : BufferPyopencl) (offset nbytes : Z) :
  (0 < nbytes -> available nbytes = true ->
   copy_native available garbage b offset nbytes = read b offset nbytes)
  /\ (nbytes <= 0 \/ available nbytes = false ->
      copy_native available garbage b offset nbytes = Raise AllocationError).
Proof.
  unfold copy_native, cl_Buffer. split.
  - intros Hn Ha. unfold read, bytearray.
    destruct (0 <? nbytes) eqn:E1; [|apply Z.ltb_ge in E1; lia].
    destruct (nbytes <? 0) eqn:E2; [apply Z.ltb_lt in E2; lia|].
    rewrite Ha. cbn [bind andb].
    unfold enqueue_copy_device, enqueue_copy_to_host.
    assert (Hg : len (map garbage (seq 0 (Z.to_nat nbytes))) = nbytes)
      by (unfold len; rewrite length_map, length_seq; lia).
    assert (Hrep : len (replicate (Z.to_nat nbytes) x00) = nbytes)
      by (unfold len; rewrite length_replicate; lia).
    rewrite Hg, Hrep.
    assert (E3 : (0 <=? nbytes) = true) by (apply Z.leb_le; lia).
    assert (H0 : in_range 0 nbytes nbytes = true) by (apply in_range_true; lia).
    rewrite E3, H0, andb_true_r, andb_true_l.
    destruct (in_range offset nbytes (len (buffer b))); [|reflexivity].
    cbn [bind]. f_equal. rewrite length_replicate, Z.add_0_l.
    change (Z.to_nat 0) with 0%nat. rewrite take_0, app_nil_l.
    rewrite (drop_ge (map garbage _)) by (rewrite length_map, length_seq; lia).
    apply app_nil_r.
  - intros [Hn | Ha].
    + destruct (0 <? nbytes) eqn:E1; [apply Z.ltb_lt in E1; lia | reflexivity].
    + rewrite Ha, andb_false_r. reflexivity.
Qed.

(** At no byte the two differ: [read] returns the empty bytes. *)
Example copy_native_of_nothing :
  copy_native available0 (fun _ => xff) buffer0 1 2 = Ret [x01; x02]
  /\ copy_native available0 (fun _ => xff) buffer0 0 0 = Raise AllocationError
  /\ read buffer0 0 0 = Ret [].
Proof. repeat split. Qed.

End BufferMoreProps.
